(** * backend-chat (Go gateway): per-session coordinator, validators, lifecycle

    Shallow embedding of [backend-go/main.go].  Go strings are byte
    sequences, so they are modelled by [string] (a list of 8-bit [ascii]);
    [len] is [String.length].  The filesystem, the session cache and the
    process environment are finite maps; HTTP handlers are functions from a
    request and a world to a response and a world; the queue protocol of the
    chat endpoint is a small-step interleaving semantics whose atomic steps
    are the mutex-protected methods of [messageQueue]. *)

From Stdlib Require Import ZArith NArith Ascii String List Bool Lia.
From stdpp Require Import base option gmap strings list pretty.
Import ListNotations.

Local Open Scope string_scope.

(** ** Go's [strings] package (the functions main.go calls) *)

Module GoStrings.

Definition byte (c : ascii) : N := N_of_ascii c.

Definition len (s : string) : N := N.of_nat (String.length s).

(** [strings.HasPrefix]. *)
Fixpoint HasPrefix (s prefix : string) : bool :=
  match prefix with
  | EmptyString => true
  | String p prefix' =>
      match s with
      | EmptyString => false
      | String c s' => Ascii.eqb c p && HasPrefix s' prefix'
      end
  end.

(** [strings.Contains]: [substr] occurs at some offset of [s]. *)
Fixpoint Contains (s substr : string) : bool :=
  HasPrefix s substr ||
  match s with
  | EmptyString => false
  | String _ s' => Contains s' substr
  end.

Fixpoint mem_byte (c : ascii) (chars : string) : bool :=
  match chars with
  | EmptyString => false
  | String d chars' => Ascii.eqb c d || mem_byte c chars'
  end.

(** [strings.ContainsAny] for a set [chars] of ASCII characters: a byte
    below 0x80 always decodes to itself, so the rune search is a byte
    search. *)
Fixpoint ContainsAny (s chars : string) : bool :=
  match s with
  | EmptyString => false
  | String c s' => mem_byte c chars || ContainsAny s' chars
  end.

(** [strings.TrimPrefix]. *)
Fixpoint drop_bytes (n : nat) (s : string) : string :=
  match n, s with
  | S n', String _ s' => drop_bytes n' s'
  | _, _ => s
  end.

Definition TrimPrefix (s prefix : string) : string :=
  if HasPrefix s prefix then drop_bytes (String.length prefix) s else s.

(** The six ASCII white-space bytes of [asciiSpace]. *)
Definition asciiSpace (c : ascii) : bool :=
  let b := byte c in
  ((9 <=? b) && (b <=? 13) || (b =? 32))%N.

(** UTF-8 encodings of the non-ASCII runes of [unicode.IsSpace]:
    U+0085, U+00A0 (two bytes); U+1680, U+2000..U+200A, U+2028, U+2029,
    U+202F, U+205F, U+3000 (three bytes). *)
Definition space2 (c d : ascii) : bool :=
  ((byte c =? 194) && ((byte d =? 133) || (byte d =? 160)))%N.

Definition space3 (c d e : ascii) : bool :=
  ((byte c =? 225) && (byte d =? 154) && (byte e =? 128)
   || (byte c =? 226) && (byte d =? 128) &&
      ((128 <=? byte e) && (byte e <=? 138)
       || (byte e =? 168) || (byte e =? 169) || (byte e =? 175))
   || (byte c =? 226) && (byte d =? 129) && (byte e =? 159)
   || (byte c =? 227) && (byte d =? 128) && (byte e =? 128))%N.

(** [strings.TrimLeftFunc s unicode.IsSpace] on the bytes in reading
    order: [c] is the first byte of the rune. *)
Fixpoint trimLeft (s : list ascii) : list ascii :=
  match s with
  | [] => []
  | c :: r =>
      if asciiSpace c then trimLeft r
      else match r with
           | d :: r2 =>
               if space2 c d then trimLeft r2
               else match r2 with
                    | e :: r3 => if space3 c d e then trimLeft r3 else s
                    | [] => s
                    end
           | [] => s
           end
  end.

(** [strings.TrimRightFunc s unicode.IsSpace] on the reversed bytes: the
    head is the last byte of the string, and the rune is decoded from the
    nearest rune-start byte before it. *)
Fixpoint trimRightRev (s : list ascii) : list ascii :=
  match s with
  | [] => []
  | e :: r =>
      if asciiSpace e then trimRightRev r
      else match r with
           | d :: r2 =>
               if space2 d e then trimRightRev r2
               else match r2 with
                    | c :: r3 => if space3 c d e then trimRightRev r3 else s
                    | [] => s
                    end
           | [] => s
           end
  end.

(** [strings.Split] for a one-byte separator: the pieces between
    separators; never the empty list. *)
Fixpoint splitOn (sep : ascii) (s : string) : list string :=
  match s with
  | EmptyString => [EmptyString]
  | String c s' =>
      if Ascii.eqb c sep then EmptyString :: splitOn sep s'
      else match splitOn sep s' with
           | h :: t => String c h :: t
           | [] => [String c EmptyString]
           end
  end.

(** [strings.HasSuffix] and [strings.TrimSuffix]. *)
Definition HasSuffix (s suffix : string) : bool :=
  (String.length suffix <=? String.length s)%nat
  && String.eqb (drop_bytes (String.length s - String.length suffix) s)
                suffix.

Fixpoint take_bytes (n : nat) (s : string) : string :=
  match n, s with
  | S n', String c s' => String c (take_bytes n' s')
  | _, _ => EmptyString
  end.

Definition TrimSuffix (s suffix : string) : string :=
  if HasSuffix s suffix
  then take_bytes (String.length s - String.length suffix) s
  else s.

(** [strings.TrimSpace]: leading and trailing white space removed. *)
Definition TrimSpace (s : string) : string :=
  string_of_list_ascii
    (rev (trimRightRev (rev (trimLeft (list_ascii_of_string s))))).

End GoStrings.

Import GoStrings.

(** ** Errors: [fmt.Errorf] values are their message *)

Definition error := string.

Inductive result (A : Type) : Type :=
| Ok (a : A)
| Err (e : error).
Arguments Ok {A} a.
Arguments Err {A} e.

(** ** Validators *)

(** The double quote, written by its code so that no literal has to
    escape it. *)
Definition dquote : ascii := ascii_of_N 34.

(** The character set passed to [strings.ContainsAny] at line 362: slash,
    dot, dot, slash, backslash, colon, star, question mark, double quote,
    less-than, greater-than, bar. *)
Definition projectNameForbidden : string :=
  "/../\:*?" +:+ String dquote "<>|".

(** [sanitizeProjectName] (main.go:360). *)
Definition sanitizeProjectName (name : string) : result string :=
  if ContainsAny name projectNameForbidden then
    Err "invalid characters in project name"
  else if (255 <? len name)%N then
    Err "project name too long"
  else if String.eqb (TrimSpace name) EmptyString then
    Err "project name cannot be empty"
  else Ok name.

Definition lf : ascii := ascii_of_N 10.
Definition cr : ascii := ascii_of_N 13.

(** The list [dangerous] of line 392, in its order; the last two entries
    are three line feeds and one carriage return. *)
Definition dangerous : list string :=
  [";"; "&"; "|"; "`"; "$"; "("; ")"; "<"; ">";
   String lf (String lf (String lf EmptyString)); String cr EmptyString].

(** The [for _, char := range dangerous] loop: the first entry that occurs
    in [msg], if any. *)
Fixpoint firstDangerous (msg : string) (ds : list string) : option string :=
  match ds with
  | [] => None
  | d :: ds' => if Contains msg d then Some d else firstDangerous msg ds'
  end.

(** [sanitizeMessage] (main.go:380). *)
Definition sanitizeMessage (msg : string) : result string :=
  if (10000 <? len msg)%N then
    Err "message too long (max 10000 chars)"
  else if String.eqb (TrimSpace msg) EmptyString then
    Err "message cannot be empty"
  else match firstDangerous msg dangerous with
       | Some d => Err ("message contains invalid characters: " +:+ d)
       | None => Ok msg
       end.

(** ** Go's [path/filepath] on Unix *)

Module Filepath.

Definition slash : ascii := "/"%char.
Definition dot : ascii := "."%char.

(** The elements between separators; never the empty list. *)
Definition split (s : string) : list string := splitOn slash s.

Fixpoint join (elems : list string) : string :=
  match elems with
  | [] => EmptyString
  | [e] => e
  | e :: rest => e +:+ String slash (join rest)
  end.

(** One element of [Clean]'s scan.  [out] is the output buffer as a stack
    of elements, last written first.  An element [..] that could not
    backtrack stays on the stack and is the barrier [dotdot]. *)
Definition cleanElem (rooted : bool) (out : list string) (e : string)
  : list string :=
  if String.eqb e EmptyString || String.eqb e "." then out
  else if String.eqb e ".." then
    match out with
    | top :: below => if String.eqb top ".." then e :: out else below
    | [] => if rooted then [] else [e]
    end
  else e :: out.

Definition IsAbs (path : string) : bool := HasPrefix path "/".

(** The elements [Clean] leaves in its buffer, first to last. *)
Definition cleanElems (path : string) : list string :=
  rev (fold_left (cleanElem (IsAbs path)) (split path) []).

(** The buffer as a string: rooted paths start with a slash, and an
    empty relative path is the dot. *)
Definition pathOf (rooted : bool) (elems : list string) : string :=
  if rooted then String slash (join elems)
  else match elems with
       | [] => "."
       | _ => join elems
       end.

(** [filepath.Clean]. *)
Definition Clean (path : string) : string :=
  if String.eqb path EmptyString then "."
  else pathOf (IsAbs path) (cleanElems path).

(** [filepath.Join]: the elements from the first non-empty one on,
    separated by slashes, then cleaned. *)
Fixpoint Join (elems : list string) : string :=
  match elems with
  | [] => EmptyString
  | e :: rest =>
      if String.eqb e EmptyString then Join rest else Clean (join elems)
  end.

(** [filepath.Abs]; [wd] is the outcome of [os.Getwd]. *)
Definition Abs (wd : result string) (path : string) : result string :=
  if IsAbs path then Ok (Clean path)
  else match wd with
       | Ok d => Ok (Join [d; path])
       | Err e => Err e
       end.

(** [filepath.Ext]'s backward scan, read forward: the last dot or slash
    of the path decides. *)
Fixpoint extScan (path : string) : option string :=
  match path with
  | EmptyString => None
  | String c r =>
      match extScan r with
      | Some e => Some e
      | None =>
          if Ascii.eqb c dot then Some path
          else if Ascii.eqb c slash then Some EmptyString
          else None
      end
  end.

Definition Ext (path : string) : string := default EmptyString (extScan path).

(** [filepath.Base]: the last element, trailing slashes ignored. *)
Definition Base (path : string) : string :=
  if String.eqb path EmptyString then "."
  else match last (filter (fun e => negb (String.eqb e EmptyString))
                     (split path)) with
       | Some e => e
       | None => "/"
       end.

(** The path up to and including its last slash. *)
Fixpoint dirPrefix (path : string) : option string :=
  match path with
  | EmptyString => None
  | String c r =>
      match dirPrefix r with
      | Some d => Some (String c d)
      | None => if Ascii.eqb c slash then Some (String c EmptyString) else None
      end
  end.

(** [filepath.Dir]: all but the last element, cleaned. *)
Definition Dir (path : string) : string :=
  Clean (default EmptyString (dirPrefix path)).

End Filepath.

Import Filepath.

(** ** The world a handler runs in *)

(** A filesystem entry: a regular file with its bytes, or a directory. *)
Inductive Node : Type :=
| File (data : string)
| Directory.

(** The errno values the handlers can observe. *)
Inductive Errno : Type := ENOENT | ENOTDIR | EISDIR | EEXIST | ENOTEMPTY.

Definition strerror (e : Errno) : string :=
  match e with
  | ENOENT => "no such file or directory"
  | ENOTDIR => "not a directory"
  | EISDIR => "is a directory"
  | EEXIST => "file exists"
  | ENOTEMPTY => "directory not empty"
  end.

(** The text of an [*os.PathError]. *)
Definition pathError (op path : string) (e : Errno) : string :=
  op +:+ " " +:+ path +:+ ": " +:+ strerror e.

Definition IsNotExist (e : Errno) : bool :=
  match e with ENOENT => true | _ => false end.

(** [SessionInfo] and [cacheEntry] (main.go:37, 43); the timestamp is in
    nanoseconds, the unit of [time.Duration]. *)
Record SessionInfo : Type := { ID : string; Path : string }.

Record cacheEntry : Type := { sessions : list SessionInfo; timestamp : Z }.

(** The process state the handlers read and write: the filesystem (keyed by
    cleaned path), [sessionCache.data], the environment, the outcome of
    [os.Getwd] and the clock. *)
Record World : Type := {
  fs : gmap string Node;
  cache : gmap string cacheEntry;
  env : gmap string string;
  wd : result string;
  now : Z
}.

Definition set_fs (w : World) (f : gmap string Node) : World :=
  {| fs := f; cache := cache w; env := env w; wd := wd w; now := now w |}.

Definition set_cache (w : World) (c : gmap string cacheEntry) : World :=
  {| fs := fs w; cache := c; env := env w; wd := wd w; now := now w |}.

(** *** System calls, on the cleaned path; the root and the working
    directory always exist. *)

Module Os.

Definition lookupNode (f : gmap string Node) (path : string) : option Node :=
  let p := Clean path in
  if String.eqb p "/" || String.eqb p "." then Some Directory else f !! p.

(** [os.Stat]. *)
Definition Stat (f : gmap string Node) (path : string) : sum Errno Node :=
  match lookupNode f path with
  | Some n => inr n
  | None => inl ENOENT
  end.

(** [info.Size()] of a regular file, in bytes. *)
Definition Size (n : Node) : N :=
  match n with
  | File data => len data
  | Directory => 0
  end.

Definition IsDir (n : Node) : bool :=
  match n with Directory => true | File _ => false end.

(** Some entry lies strictly below [path]. *)
Definition hasChildren (f : gmap string Node) (path : string) : bool :=
  let p := Clean path +:+ "/" in
  existsb (fun kv => HasPrefix (fst kv) p) (map_to_list f).

(** [os.Remove]: unlink a file or remove an empty directory. *)
Definition Remove (f : gmap string Node) (path : string)
  : sum Errno (gmap string Node) :=
  match f !! Clean path with
  | Some (File _) => inr (delete (Clean path) f)
  | Some Directory =>
      if hasChildren f path then inl ENOTEMPTY
      else inr (delete (Clean path) f)
  | None => inl ENOENT
  end.

(** [os.RemoveAll]: the entry and everything below it; no error when the
    path does not exist. *)
Definition RemoveAll (f : gmap string Node) (path : string)
  : gmap string Node :=
  let p := Clean path in
  filter (fun kv => negb (String.eqb (fst kv) p
                          || HasPrefix (fst kv) (p +:+ "/")) = true) f.

(** [os.ReadFile]. *)
Definition ReadFile (f : gmap string Node) (path : string)
  : sum Errno string :=
  match lookupNode f path with
  | Some (File data) => inr data
  | Some Directory => inl EISDIR
  | None => inl ENOENT
  end.

(** [os.WriteFile] with create and truncate: the parent must be a
    directory and the target must not be one. *)
Definition WriteFile (f : gmap string Node) (path : string) (data : string)
  : sum Errno (gmap string Node) :=
  match lookupNode f path with
  | Some Directory => inl EISDIR
  | _ =>
      match lookupNode f (Filepath.Dir path) with
      | Some Directory => inr (<[Clean path := File data]> f)
      | Some (File _) => inl ENOTDIR
      | None => inl ENOENT
      end
  end.

(** [os.MkdirAll], on the elements of the cleaned path, last first:
    an existing directory ends the recursion, a file in the way is an
    error (returned with its path), and a missing directory is made after
    its parent. *)
Fixpoint mkdirAllRev (f : gmap string Node) (rooted : bool)
    (rev_elems : list string) : sum (string * Errno) (gmap string Node) :=
  match rev_elems with
  | [] => inr f
  | _ :: parent =>
      let p := pathOf rooted (rev rev_elems) in
      match f !! p with
      | Some Directory => inr f
      | Some (File _) => inl (p, ENOTDIR)
      | None =>
          match mkdirAllRev f rooted parent with
          | inl e => inl e
          | inr f1 => inr (<[p := Directory]> f1)
          end
      end
  end.

Definition MkdirAll (f : gmap string Node) (path : string)
  : sum (string * Errno) (gmap string Node) :=
  mkdirAllRev f (IsAbs path) (rev (cleanElems path)).

End Os.

(** *** Environment and base directories *)

(** [os.Getenv]: the empty string when the variable is unset. *)
Definition Getenv (w : World) (key : string) : string :=
  default EmptyString (env w !! key).

(** [os.UserHomeDir] on Unix: the value of HOME, an error when empty. *)
Definition UserHomeDir (w : World) : result string :=
  let v := Getenv w "HOME" in
  if String.eqb v EmptyString then Err "$HOME is not defined" else Ok v.

(** [getClaudeBaseDir] (main.go:305). *)
Definition getClaudeBaseDir (w : World) : string :=
  let baseDir := Getenv w "CLAUDE_BASE_DIR" in
  if negb (String.eqb baseDir EmptyString) then baseDir
  else match UserHomeDir w with
       | Err _ => "/Users/2a/.claude"
       | Ok home => Join [home; ".claude"]
       end.

(** [getClaudeProjectsDir] and [getClaudeProjetosDir] (main.go:321, 326). *)
Definition getClaudeProjectsDir (w : World) : string :=
  Join [getClaudeBaseDir w; "projects"].

Definition getClaudeProjetosDir (w : World) : string :=
  Join [getClaudeBaseDir w; "projetos"].

(** *** Path and file validation *)

(** [validatePath] (main.go:331): [None] is the nil error. *)
Definition validatePath (w : World) (path basePath : string) : option error :=
  let cleanPath := Clean path in
  if Contains cleanPath ".." then Some "invalid path: contains '..'"
  else match Abs (wd w) cleanPath with
       | Err e => Some ("invalid path: " +:+ e)
       | Ok absPath =>
           match Abs (wd w) basePath with
           | Err e => Some ("invalid base path: " +:+ e)
           | Ok absBase =>
               if negb (HasPrefix absPath absBase)
               then Some "path outside base directory"
               else None
           end
       end.

(** 100*1024*1024 bytes. *)
Definition maxFileSize : N := 104857600.

(** [validateFileOperation] (main.go:403); [info] is nil exactly when
    [os.Stat] failed. *)
Definition validateFileOperation (w : World) (filePath operation : string)
  : option error :=
  let st := Os.Stat (fs w) filePath in
  let info := match st with inr n => Some n | inl _ => None end in
  if (match st with inl _ => true | inr _ => false end)
     && negb (String.eqb operation "create")
  then Some "file not found"
  else if match info with Some n => Os.IsDir n | None => false end
  then Some "path is directory, not file"
  else
    let ext := Ext filePath in
    if negb (String.eqb ext ".jsonl") && negb (String.eqb ext EmptyString)
    then Some "invalid extension: only .jsonl allowed"
    else if match info with
            | Some n => (maxFileSize <? Os.Size n)%N
            | None => false
            end
    then Some "file too large: max 100MB"
    else None.

(** *** Session cache (main.go:270-301) *)

(** 5*time.Minute in nanoseconds. *)
Definition cacheTTL : Z := 300000000000.

Definition getCachedSessions (w : World) (projectName : string)
  : option (list SessionInfo) :=
  match cache w !! projectName with
  | None => None
  | Some entry =>
      if (cacheTTL <? now w - timestamp entry)%Z then None
      else Some (sessions entry)
  end.

Definition updateSessionCache (w : World) (projectName : string)
    (ss : list SessionInfo) : World :=
  set_cache w (<[projectName := {| sessions := ss; timestamp := now w |}]>
                 (cache w)).

Definition invalidateSessionCache (w : World) (projectName : string) : World :=
  set_cache w (delete projectName (cache w)).

(** ** Chat turns *)

(** [ChatRequest] (main.go:24); a nil pointer is [None]. *)
Record ChatRequest : Type := {
  Message : string;
  SessionID : option string;
  ProjectName : option string
}.

(** A [context.Context].  [Background] is never cancelled; the context of
    an HTTP request is cancelled when its client's connection closes.
    Connections are numbered. *)
Inductive Context : Type :=
| Background
| RequestContext (conn : nat).

(** [ctx.Done()] has fired, given the connections closed so far. *)
Definition ctxDone (closed : list nat) (c : Context) : bool :=
  match c with
  | Background => false
  | RequestContext conn => bool_decide (conn ∈ closed)
  end.

(** [queuedMessage] (main.go:64); the channel is named by a number. *)
Record queuedMessage : Type := {
  message : ChatRequest;
  response : nat;
  ctx : Context
}.

(** What the handler has decided when it reaches the queue. *)
Record Turn : Type := {
  sessionID : string;
  projectDir : string;
  sessionExists : bool;
  queued : queuedMessage
}.

(** ** HTTP layer *)

(** A JSON value as far as the handlers look at it. *)
Inductive JValue : Type :=
| JString (s : string)
| JBool (b : bool)
| JOther.

(** A request as the handlers see it: method, headers (canonical names),
    the wildcards of the matched pattern, and the body as [encoding/json]
    decodes it into an object of string fields ([Err] when decoding
    fails). *)
Record Request : Type := {
  method : string;
  header : gmap string string;
  pathValues : gmap string string;
  jsonBody : result (gmap string string);
  remoteAddr : string
}.

(** [r.Header.Get] and [r.PathValue]: the empty string when absent.
    Header names are in canonical form, so X-API-Key is looked up as
    X-Api-Key. *)
Definition HeaderGet (r : Request) (key : string) : string :=
  default EmptyString (header r !! key).

Definition PathValue (r : Request) (name : string) : string :=
  default EmptyString (pathValues r !! name).

(** [SSEMessage] (main.go:30), the payload of one frame sent to the
    client. *)
Record SSEMessage : Type := {
  msgType : string;
  msgContent : string;
  msgSessionID : option string
}.

(** What was written to the [http.ResponseWriter]: [http.Error] writes a
    text body with its status; [json.NewEncoder(w).Encode] writes an object
    (keys sorted) with the implicit status 200; the chat endpoint writes
    event-stream frames.  Response headers are left out. *)
Inductive Body : Type :=
| Text (msg : string)
| Json (fields : list (string * JValue))
| Frames (msgs : list SSEMessage).

Record Response : Type := { status : Z; body : Body }.

(** How a handler ends: it has written its response, or (the chat
    endpoint) it has a turn to enqueue and will stream the turn's events. *)
Inductive Outcome : Type :=
| Replied (resp : Response)
| Streaming (t : Turn).

Definition httpError (msg : string) (code : Z) : Outcome :=
  Replied {| status := code; body := Text msg |}.

Definition jsonOK (fields : list (string * JValue)) : Outcome :=
  Replied {| status := 200; body := Json fields |}.

(** The status line the client sees; a stream starts with 200. *)
Definition statusOf (o : Outcome) : Z :=
  match o with
  | Replied resp => status resp
  | Streaming _ => 200
  end.

Definition StatusOK : Z := 200.
Definition StatusBadRequest : Z := 400.
Definition StatusUnauthorized : Z := 401.
Definition StatusForbidden : Z := 403.
Definition StatusNotFound : Z := 404.
Definition StatusConflict : Z := 409.
Definition StatusInternalServerError : Z := 500.

Definition Handler : Type := Request -> World -> Outcome * World.

(** [authMiddleware] (main.go:463). *)
Definition authMiddleware (next : Handler) : Handler :=
  fun r w =>
    let apiKey := Getenv w "API_KEY" in
    if String.eqb apiKey EmptyString then next r w
    else
      let providedKey := HeaderGet r "X-Api-Key" in
      if negb (String.eqb providedKey apiKey)
      then (httpError "Unauthorized" StatusUnauthorized, w)
      else next r w.

(** [corsMiddleware] (main.go:499): a preflight request is answered
    without calling the handler. *)
Definition corsMiddleware (next : Handler) : Handler :=
  fun r w =>
    if String.eqb (method r) "OPTIONS"
    then (Replied {| status := StatusOK; body := Text EmptyString |}, w)
    else next r w.

(** *** DELETE /api/projects/{projectName}/sessions/{sessionID}
    (main.go:833) *)

Definition deleteSessionHandler : Handler :=
  fun r w =>
    let projectName := PathValue r "projectName" in
    let sessionID := PathValue r "sessionID" in
    let sessionFile :=
      Join [getClaudeProjectsDir w; projectName; sessionID +:+ ".jsonl"] in
    match validatePath w sessionFile (getClaudeProjectsDir w) with
    | Some _ => (httpError "Invalid path" StatusBadRequest, w)
    | None =>
        match validateFileOperation w sessionFile "delete" with
        | Some e =>
            (httpError ("Invalid file operation: " +:+ e) StatusBadRequest, w)
        | None =>
            match Os.Stat (fs w) sessionFile with
            | inl ENOENT => (httpError "Session not found" StatusNotFound, w)
            | _ =>
                match Os.Remove (fs w) sessionFile with
                | inl e =>
                    (httpError ("Error deleting session: "
                                +:+ pathError "remove" sessionFile e)
                       StatusInternalServerError, w)
                | inr f' =>
                    let w1 := set_fs w f' in
                    let w2 := invalidateSessionCache w1 projectName in
                    (jsonOK [("message", JString "Sessão deletada com sucesso");
                             ("success", JBool true)], w2)
                end
            end
        end
    end.

(** *** POST /api/clear-history (main.go:883) *)

Definition homeProject : string := "-Users-2a--claude-projetos-home".

Definition clearHistoryHandler : Handler :=
  fun r w =>
    let homeSessionFile :=
      Join [getClaudeProjectsDir w; homeProject;
            "00000000-0000-0000-0000-000000000001.jsonl"] in
    (* the outcome of validateFileOperation is only logged *)
    match Os.Remove (fs w) homeSessionFile with
    | inl e =>
        if negb (IsNotExist e)
        then (httpError "Erro ao limpar histórico" StatusInternalServerError, w)
        else (jsonOK [("message", JString "Histórico limpo com sucesso");
                      ("success", JBool true)],
              invalidateSessionCache w homeProject)
    | inr f' =>
        (jsonOK [("message", JString "Histórico limpo com sucesso");
                 ("success", JBool true)],
         invalidateSessionCache (set_fs w f') homeProject)
    end.

(** *** POST /api/fork-session (main.go:915-999) *)

Definition isHex (c : ascii) : bool :=
  let b := byte c in
  ((48 <=? b) && (b <=? 57) || (97 <=? b) && (b <=? 102)
   || (65 <=? b) && (b <=? 70))%N.

(** [n] hexadecimal digits, then the rest. *)
Fixpoint hexRun (n : nat) (s : string) : option string :=
  match n with
  | O => Some s
  | S n' =>
      match s with
      | String c r => if isHex c then hexRun n' r else None
      | EmptyString => None
      end
  end.

Definition dash (s : string) : option string :=
  match s with
  | String c r => if Ascii.eqb c "-"%char then Some r else None
  | EmptyString => None
  end.

(** [isValidUUID]: the anchored pattern 8-4-4-4-12 of hexadecimal digits. *)
Definition isValidUUID (s : string) : bool :=
  match fold_left (fun (o : option string) p => o ≫= p)
          [dash; hexRun 4; dash; hexRun 4; dash; hexRun 4; dash; hexRun 12]
          (hexRun 8 s) with
  | Some EmptyString => true
  | _ => false
  end.

(** A field of the decoded struct: the zero value when the key is absent. *)
Definition field (o : gmap string string) (key : string) : string :=
  default EmptyString (o !! key).

Definition forkSessionHandler : Handler :=
  fun r w =>
    match jsonBody r with
    | Err e => (httpError e StatusBadRequest, w)
    | Ok req =>
        let SourceSession := field req "source_session" in
        let ForkSession := field req "fork_session" in
        let ProjectName := field req "project_name" in
        if negb (isValidUUID SourceSession) || negb (isValidUUID ForkSession)
        then (httpError "UUIDs inválidos" StatusBadRequest, w)
        else if String.eqb ProjectName EmptyString
        then (httpError "Nome do projeto obrigatório" StatusBadRequest, w)
        else
          let projectDir := Join [getClaudeProjectsDir w; ProjectName] in
          let sourcePath := Join [projectDir; SourceSession +:+ ".jsonl"] in
          let forkPath := Join [projectDir; ForkSession +:+ ".jsonl"] in
          match validateFileOperation w sourcePath "read" with
          | Some e =>
              (httpError ("Sessão fonte não encontrada: " +:+ e)
                 StatusNotFound, w)
          | None =>
              match Os.Stat (fs w) forkPath with
              | inr _ => (httpError "Fork já existe" StatusConflict, w)
              | inl _ =>
                  match Os.ReadFile (fs w) sourcePath with
                  | inl _ =>
                      (httpError "Erro ao ler sessão fonte"
                         StatusInternalServerError, w)
                  | inr data =>
                      match Os.MkdirAll (fs w) projectDir with
                      | inl _ =>
                          (httpError "Erro ao criar diretório"
                             StatusInternalServerError, w)
                      | inr f1 =>
                          match Os.WriteFile f1 forkPath data with
                          | inl _ =>
                              (httpError "Erro ao criar fork"
                                 StatusInternalServerError, set_fs w f1)
                          | inr f2 =>
                              (jsonOK [("fork_path", JString forkPath);
                                       ("fork_session_id", JString ForkSession);
                                       ("project_name", JString ProjectName);
                                       ("source_session_id",
                                        JString SourceSession);
                                       ("success", JBool true)],
                               invalidateSessionCache (set_fs w f2)
                                 ProjectName)
                          end
                      end
                  end
              end
          end
    end.

(** *** Directory listing *)

Module Listing.

Fixpoint insertByName (e : string * Node) (l : list (string * Node))
  : list (string * Node) :=
  match l with
  | [] => [e]
  | x :: l' =>
      if String.leb (fst e) (fst x) then e :: l else x :: insertByName e l'
  end.

Definition sortByName (l : list (string * Node)) : list (string * Node) :=
  foldr insertByName [] l.

(** [os.ReadDir]: the entries directly below [dir], by file name. *)
Definition ReadDir (f : gmap string Node) (dir : string)
  : sum Errno (list (string * Node)) :=
  match Os.lookupNode f dir with
  | None => inl ENOENT
  | Some (File _) => inl ENOTDIR
  | Some Directory =>
      let d := Clean dir in
      let below (kv : string * Node) :=
        negb (String.eqb (fst kv) d) && String.eqb (Filepath.Dir (fst kv)) d in
      inr (sortByName
             (map (fun kv => (Base (fst kv), snd kv))
                (List.filter below (map_to_list f))))
  end.

(** The handlers ignore the error of [os.ReadDir] and range over a nil
    slice. *)
Definition entriesOrNil (f : gmap string Node) (dir : string)
  : list (string * Node) :=
  match ReadDir f dir with
  | inr es => es
  | inl _ => []
  end.

End Listing.

(** *** DELETE /api/projects/{projectName} (main.go:647) *)

Definition deleteProjectHandler : Handler :=
  fun r w =>
    let projectName := PathValue r "projectName" in
    match sanitizeProjectName projectName with
    | Err e => (httpError ("invalid project name: " +:+ e) StatusBadRequest, w)
    | Ok sanitized =>
        let simpleName :=
          if HasPrefix sanitized "-Users-"
          then default sanitized (last (splitOn "-"%char sanitized))
          else sanitized in
        match sanitizeProjectName simpleName with
        | Err e =>
            (httpError ("invalid simple name: " +:+ e) StatusBadRequest, w)
        | Ok simpleName =>
            let projectsPath := Join [getClaudeProjectsDir w; sanitized] in
            match validatePath w projectsPath (getClaudeProjectsDir w) with
            | Some e =>
                (httpError ("invalid path: " +:+ e) StatusForbidden, w)
            | None =>
                let w1 := set_fs w (Os.RemoveAll (fs w) projectsPath) in
                let simplePath := Join [getClaudeProjetosDir w1; simpleName] in
                match validatePath w1 simplePath (getClaudeProjetosDir w1) with
                | Some e =>
                    (httpError ("invalid simple path: " +:+ e)
                       StatusForbidden, w1)
                | None =>
                    let w2 := set_fs w1 (Os.RemoveAll (fs w1) simplePath) in
                    (jsonOK [("message", JString "Projeto deletado com sucesso");
                             ("success", JBool true)],
                     invalidateSessionCache w2 sanitized)
                end
            end
        end
    end.

(** ** The chat endpoint: request-scoped part (main.go:1002-1117) *)

Definition decodeChat (o : gmap string string) : ChatRequest :=
  {| Message := field o "message";
     SessionID := o !! "session_id";
     ProjectName := o !! "project_name" |}.

Definition nonEmpty (o : option string) : option string :=
  match o with
  | Some s => if String.eqb s EmptyString then None else Some s
  | None => None
  end.

(** The scan of the projects directory for the session file
    (main.go:1071-1082). *)
Fixpoint findProject (f : gmap string Node) (projectsBase sid : string)
    (dirs : list (string * Node)) : option string :=
  match dirs with
  | [] => None
  | (name, n) :: rest =>
      if Os.IsDir n then
        let projPath := Join [projectsBase; name] in
        match Os.Stat f (Join [projPath; sid +:+ ".jsonl"]) with
        | inr _ => Some projPath
        | inl _ => findProject f projectsBase sid rest
        end
      else findProject f projectsBase sid rest
  end.

(** The scan of the base directory for any session file
    (main.go:1093-1099). *)
Fixpoint firstSession (entries : list (string * Node)) : option string :=
  match entries with
  | [] => None
  | (name, n) :: rest =>
      if negb (Os.IsDir n) && String.eqb (Ext name) ".jsonl"
      then Some (TrimSuffix name ".jsonl")
      else firstSession rest
  end.

(** The handler up to [queue.enqueue]: either it has answered already, or
    it hands a turn to the queue.  [conn] is the connection of the request,
    [ch] the channel made at line 1110 and [fresh] the value of
    [uuid.New().String()]; the [http.ResponseWriter] is a flusher. *)
Definition chatHandler (conn ch : nat) (fresh : string) : Handler :=
  fun r w =>
  match jsonBody r with
  | Err e => (httpError e StatusBadRequest, w)
  | Ok o =>
      let req := decodeChat o in
      match sanitizeMessage (Message req) with
      | Err e =>
          (httpError ("invalid message: " +:+ e) StatusBadRequest, w)
      | Ok sanitized =>
          let req := {| Message := sanitized; SessionID := SessionID req;
                        ProjectName := ProjectName req |} in
          let ctx := Background in
          let hand (sid dir : string) (exists_ : bool) (w' : World) :=
            (Streaming {| sessionID := sid; projectDir := dir;
                          sessionExists := exists_;
                          queued := {| message := req; response := ch;
                                       ctx := ctx |} |}, w') in
          match nonEmpty (SessionID req) with
          | Some sid =>
              match nonEmpty (ProjectName req) with
              | Some pname =>
                  let projectsBase := getClaudeProjectsDir w in
                  match Os.Stat (fs w)
                          (Join [projectsBase; pname; sid +:+ ".jsonl"]) with
                  | inr _ => hand sid (Join [projectsBase; pname]) true w
                  | inl _ =>
                      let dir := Join [getClaudeProjetosDir w; pname] in
                      match Os.MkdirAll (fs w) dir with
                      | inl (p, e) =>
                          (Replied
                             {| status := StatusOK;
                                body := Frames
                                  [{| msgType := "error";
                                      msgContent :=
                                        "Erro ao criar diretório do projeto: "
                                        +:+ pathError "mkdir" p e;
                                      msgSessionID := None |}] |}, w)
                      | inr f' => hand sid dir false (set_fs w f')
                      end
                  end
              | None =>
                  let projectsBase := getClaudeProjectsDir w in
                  match findProject (fs w) projectsBase sid
                          (Listing.entriesOrNil (fs w) projectsBase) with
                  | Some projPath => hand sid projPath true w
                  | None => hand sid (getClaudeBaseDir w) false w
                  end
              end
          | None =>
              let dir := getClaudeBaseDir w in
              match firstSession (Listing.entriesOrNil (fs w) dir) with
              | Some sid => hand sid dir true w
              | None => hand fresh dir false w
              end
          end
      end
  end.

(** [rateLimitMiddleware] (main.go:447); [allow] is the answer of the
    limiter of the remote address. *)
Definition StatusTooManyRequests : Z := 429.

Definition rateLimitMiddleware (allow : string -> bool) (next : Handler)
  : Handler :=
  fun r w =>
    if negb (allow (remoteAddr r))
    then (httpError "rate limit exceeded" StatusTooManyRequests, w)
    else next r w.

(** *** The mutating routes as registered on the mux *)

(** main.go:647. *)
Definition deleteProjectRoute : Handler :=
  authMiddleware (corsMiddleware deleteProjectHandler).

(** main.go:833: no [authMiddleware] around this one. *)
Definition deleteSessionRoute : Handler :=
  corsMiddleware deleteSessionHandler.

(** main.go:883. *)
Definition clearHistoryRoute : Handler :=
  authMiddleware (corsMiddleware clearHistoryHandler).

(** main.go:922. *)
Definition forkSessionRoute : Handler :=
  authMiddleware (corsMiddleware forkSessionHandler).

(** main.go:1002. *)
Definition chatRoute (allow : string -> bool) (conn ch : nat)
    (fresh : string) : Handler :=
  authMiddleware
    (rateLimitMiddleware allow (corsMiddleware (chatHandler conn ch fresh))).

(** ** Upstream proxy: [executeClaudeCLI] (main.go:168) *)

(** [sseEvent] (main.go:71). *)
Record sseEvent : Type := {
  eventType : string;
  content : string;
  eventSession : option string
}.

Definition textEvent (c : string) : sseEvent :=
  {| eventType := "text"; content := c; eventSession := None |}.

Definition errorEvent (c : string) : sseEvent :=
  {| eventType := "error"; content := c; eventSession := None |}.

Definition doneEvent (sid : string) : sseEvent :=
  {| eventType := "done"; content := EmptyString; eventSession := Some sid |}.

(** What the upstream did with the request: one of the three failures
    before a response, or a response with its status and the bytes of the
    body that arrived before the end of the stream or a read error. *)
Inductive Upstream : Type :=
| MarshalFailed (err : string)
| NewRequestFailed (err : string)
| DoFailed (err : string)
| Responded (statusCode : Z) (bodyRead : string).

(** [v.(string)] on a map lookup. *)
Definition asString (v : option JValue) : option string :=
  match v with
  | Some (JString s) => Some s
  | _ => None
  end.

(** The lines [reader.ReadString] returns without an error: each ends with
    its line feed; what follows the last line feed comes with [io.EOF] (or
    the read error) and is dropped by the [break]. *)
Definition readLines (bodyRead : string) : list string :=
  map (fun l => l +:+ String lf EmptyString)
    (removelast (splitOn lf bodyRead)).

Section Proxy.

(** [json.Unmarshal] into a [map[string]interface{}]; [None] is an
    error. *)
Variable unmarshal : string -> option (gmap string JValue).

(** The conversion of one decoded frame (main.go:246-260). *)
Definition frameEvents (sid : string) (data : gmap string JValue)
  : list sseEvent :=
  let eventType := default EmptyString (asString (data !! "type")) in
  if String.eqb eventType "text" || String.eqb eventType "content" then
    match asString (data !! "content") with
    | Some c => [textEvent c]
    | None =>
        match asString (data !! "text") with
        | Some t => [textEvent t]
        | None => []
        end
    end
  else if String.eqb eventType "done"
          || String.eqb eventType "session_created" then
    [doneEvent sid]
  else if String.eqb eventType "error" then
    match asString (data !! "error") with
    | Some errorMsg => [errorEvent errorMsg]
    | None => []
    end
  else [].

(** One turn of the read loop (main.go:230-261). *)
Definition lineEvents (sid : string) (line : string) : list sseEvent :=
  let line := TrimSpace line in
  if String.eqb line EmptyString then []
  else if HasPrefix line "data: " then
    match unmarshal (TrimPrefix line "data: ") with
    | None => []
    | Some data => frameEvents sid data
    end
  else [].

(** The read loop, with the events sent so far. *)
Fixpoint readLoop (sid : string) (lines : list string)
    (sent : list sseEvent) : list sseEvent :=
  match lines with
  | [] => sent
  | line :: rest => readLoop sid rest (sent ++ lineEvents sid line)
  end.

(** The events sent on [eventChan], in order, before the deferred
    [close]. *)
Definition executeClaudeCLI (sid : string) (up : Upstream)
  : list sseEvent :=
  match up with
  | MarshalFailed err => [errorEvent ("Erro ao criar payload: " +:+ err)]
  | NewRequestFailed err => [errorEvent ("Erro ao criar request: " +:+ err)]
  | DoFailed err => [errorEvent ("Erro ao conectar com Python: " +:+ err)]
  | Responded statusCode bodyRead =>
      if negb (statusCode =? StatusOK)%Z then
        [errorEvent ("Erro HTTP " +:+ pretty statusCode +:+ ": "
                     +:+ bodyRead)]
      else readLoop sid (readLines bodyRead) []
  end.

End Proxy.

(** ** Per-session queues (main.go:56-165) *)

Record messageQueue : Type := {
  messages : list queuedMessage;
  processing : bool
}.

(** The four methods; each runs under [q.mu] and is one atomic step. *)
Definition enqueue (q : messageQueue) (msg : queuedMessage) : messageQueue :=
  {| messages := messages q ++ [msg]; processing := processing q |}.

Definition dequeue (q : messageQueue) : messageQueue * option queuedMessage :=
  match messages q with
  | [] => (q, None)
  | msg :: rest =>
      ({| messages := rest; processing := processing q |}, Some msg)
  end.

Definition isProcessing (q : messageQueue) : bool := processing q.

Definition setProcessing (q : messageQueue) (b : bool) : messageQueue :=
  {| messages := messages q; processing := b |}.

(** [getOrCreateQueue] on [sessionQueues.queues]; the queue is shared, so
    the registry holds its state and threads name it by session id. *)
Definition getOrCreateQueue (qs : gmap string messageQueue) (sid : string)
  : gmap string messageQueue :=
  match qs !! sid with
  | Some _ => qs
  | None => <[sid := {| messages := []; processing := false |}]> qs
  end.

(** ** Interleaving semantics of the chat handlers and queue workers

    A handler thread is the part of the chat handler after the turn has
    been built (main.go:1106-1143); a worker thread is [processQueue].
    Every step is one lock-protected method call or one channel operation;
    between two steps of a thread any other thread may run.  Making the
    channel (a local action) is part of the enqueue step.  The worker's
    [os.Stat] of the session file (lines 154-161) only sets an argument the
    proxy never reads, and the handler's cache invalidation after its loop
    touches no queue; both are left out. *)

Module Coordinator.

(** The buffered channel made at line 1110. *)
Record Chan : Type := { buffer : list sseEvent; closed : bool }.

Definition chanCap : nat := 100.

Inductive HandlerPc : Type :=
| HGetQueue        (* line 1107 *)
| HEnqueue         (* lines 1110-1117 *)
| HIsProcessing    (* line 1120 *)
| HSetProcessing   (* line 1121 *)
| HGo              (* line 1123 *)
| HRange           (* line 1129 *)
| HReturned.

Record HandlerThread : Type := {
  hturn : Turn;
  hpc : HandlerPc;
  received : list sseEvent
}.

Inductive WorkerPc : Type :=
| WGetQueue                                   (* line 141 *)
| WDequeue                                    (* line 144 *)
| WExecute (msg : queuedMessage) (pending : list sseEvent)  (* line 163 *)
| WSetProcessing                              (* line 146 *)
| WReturned.

Record WorkerThread : Type := {
  wsession : string;
  wdir : string;
  wpc : WorkerPc
}.

Record State : Type := {
  queues : gmap string messageQueue;
  chans : gmap nat Chan;
  handlers : list HandlerThread;
  workers : list WorkerThread
}.

Inductive Tid : Type :=
| H (i : nat)
| W (j : nat).

Definition at_pc (t : HandlerThread) (pc : HandlerPc) : HandlerThread :=
  {| hturn := hturn t; hpc := pc; received := received t |}.

Definition moveWorker (t : WorkerThread) (pc : WorkerPc) : WorkerThread :=
  {| wsession := wsession t; wdir := wdir t; wpc := pc |}.

Section Steps.

Variable unmarshal : string -> option (gmap string JValue).

(** What the upstream answers to each turn. *)
Variable upstream : queuedMessage -> Upstream.

Definition stepHandler (i : nat) (st : State) : option State :=
  t ← handlers st !! i;
  let sid := sessionID (hturn t) in
  let ch := response (queued (hturn t)) in
  let upd qs cs pc ws :=
    Some {| queues := qs; chans := cs;
            handlers := <[i := at_pc t pc]> (handlers st);
            workers := ws |} in
  match hpc t with
  | HGetQueue =>
      upd (getOrCreateQueue (queues st) sid) (chans st) HEnqueue
        (workers st)
  | HEnqueue =>
      q ← queues st !! sid;
      upd (<[sid := enqueue q (queued (hturn t))]> (queues st))
        (<[ch := {| buffer := []; closed := false |}]> (chans st))
        HIsProcessing (workers st)
  | HIsProcessing =>
      q ← queues st !! sid;
      upd (queues st) (chans st)
        (if negb (isProcessing q) then HSetProcessing else HRange)
        (workers st)
  | HSetProcessing =>
      q ← queues st !! sid;
      upd (<[sid := setProcessing q true]> (queues st)) (chans st) HGo
        (workers st)
  | HGo =>
      upd (queues st) (chans st) HRange
        (workers st ++ [{| wsession := sid;
                           wdir := projectDir (hturn t);
                           wpc := WGetQueue |}])%list
  | HRange =>
      c ← chans st !! ch;
      match buffer c with
      | ev :: rest =>
          Some {| queues := queues st;
                  chans := <[ch := {| buffer := rest;
                                      closed := closed c |}]> (chans st);
                  handlers :=
                    <[i := {| hturn := hturn t; hpc := HRange;
                              received := (received t ++ [ev])%list |}]>
                      (handlers st);
                  workers := workers st |}
      | [] =>
          if closed c
          then upd (queues st) (chans st) HReturned (workers st)
          else None
      end
  | HReturned => None
  end.

Definition stepWorker (j : nat) (st : State) : option State :=
  t ← workers st !! j;
  let sid := wsession t in
  let upd qs cs pc :=
    Some {| queues := qs; chans := cs; handlers := handlers st;
            workers := <[j := moveWorker t pc]> (workers st) |} in
  match wpc t with
  | WGetQueue => upd (getOrCreateQueue (queues st) sid) (chans st) WDequeue
  | WDequeue =>
      q ← queues st !! sid;
      match dequeue q with
      | (q', Some msg) =>
          upd (<[sid := q']> (queues st)) (chans st)
            (WExecute msg (executeClaudeCLI unmarshal sid (upstream msg)))
      | (q', None) =>
          upd (<[sid := q']> (queues st)) (chans st) WSetProcessing
      end
  | WExecute msg pending =>
      c ← chans st !! response msg;
      match pending with
      | ev :: rest =>
          if (length (buffer c) <? chanCap)%nat
          then upd (queues st)
                 (<[response msg := {| buffer := (buffer c ++ [ev])%list;
                                       closed := closed c |}]> (chans st))
                 (WExecute msg rest)
          else None
      | [] =>
          upd (queues st)
            (<[response msg := {| buffer := buffer c; closed := true |}]>
               (chans st))
            WDequeue
      end
  | WSetProcessing =>
      q ← queues st !! sid;
      upd (<[sid := setProcessing q false]> (queues st)) (chans st)
        WReturned
  | WReturned => None
  end.

Definition step (st : State) (tid : Tid) : option State :=
  match tid with
  | H i => stepHandler i st
  | W j => stepWorker j st
  end.

(** A schedule, first step first. *)
Fixpoint run (st : State) (schedule : list Tid) : option State :=
  match schedule with
  | [] => Some st
  | tid :: rest =>
      match step st tid with
      | Some st' => run st' rest
      | None => None
      end
  end.

End Steps.

(** The chat handlers of the given turns have all reached line 1106;
    nothing else has happened. *)
Definition start (turns : list Turn) : State :=
  {| queues := ∅; chans := ∅;
     handlers := map (fun t => {| hturn := t; hpc := HGetQueue;
                                  received := [] |}) turns;
     workers := [] |}.

Definition isExecuting (sid : string) (t : WorkerThread) : bool :=
  String.eqb (wsession t) sid
  && match wpc t with
     | WExecute _ _ => true
     | _ => false
     end.

(** The number of workers inside [executeClaudeCLI] for session [sid]. *)
Definition executing (sid : string) (st : State) : nat :=
  length (List.filter (isExecuting sid) (workers st)).

Definition workerLive (t : WorkerThread) : bool :=
  match wpc t with
  | WReturned => false
  | _ => true
  end.

(** A live worker of session [sid] exists. *)
Definition hasWorker (sid : string) (st : State) : bool :=
  existsb (fun t => String.eqb (wsession t) sid && workerLive t)
    (workers st).

End Coordinator.

(** ** Vocabulary of the properties *)

(** The UTF-8 encoding of one white-space rune. *)
Definition isSpaceRune (r : list ascii) : bool :=
  match r with
  | [c] => asciiSpace c
  | [c; d] => space2 c d
  | [c; d; e] => space3 c d e
  | _ => false
  end.

(** A string made of white-space runes only (the empty string included). *)
Definition whitespaceOnly (s : string) : Prop :=
  exists runes : list (list ascii),
    Forall (fun r => isSpaceRune r = true) runes
    /\ s = string_of_list_ascii (concat runes).

(** The characters the interface documents as forbidden in a project
    name: slash, backslash, colon, star, question mark, double quote,
    less-than, greater-than, bar. *)
Definition documentedForbidden : string :=
  "/\:*?" +:+ String dquote "<>|".

(** Fixtures: a process whose home is /home/u, with the given files,
    cache and extra environment. *)
Definition homeEnv : gmap string string := {[ "HOME" := "/home/u" ]}.

Definition worldOf (files : gmap string Node) (c : gmap string cacheEntry)
    (vars : gmap string string) : World :=
  {| fs := files; cache := c; env := vars; wd := Ok "/srv/backend-go";
     now := 0 |}.

Definition requestOf (m : string) (hs vals : gmap string string)
    (b : result (gmap string string)) : Request :=
  {| method := m; header := hs; pathValues := vals; jsonBody := b;
     remoteAddr := "127.0.0.1:50000" |}.

(** One project with one session file, and its cache entry. *)
Definition sessionPath : string := "/home/u/.claude/projects/p/s.jsonl".

Definition oneSession : gmap string Node :=
  {[ "/home/u" := Directory;
     "/home/u/.claude" := Directory;
     "/home/u/.claude/projects" := Directory;
     "/home/u/.claude/projects/p" := Directory;
     sessionPath := File "{}" ]}.

Definition cachedP : gmap string cacheEntry :=
  {[ "p" := {| sessions := [{| ID := "s"; Path := "p/s" |}];
               timestamp := 0 |} ]}.

Definition deleteS (hs : gmap string string) : Request :=
  requestOf "DELETE" hs {[ "projectName" := "p"; "sessionID" := "s" ]}
    (Err "EOF").

(** The same process with an API key configured. *)
Definition keyedEnv : gmap string string :=
  {[ "HOME" := "/home/u"; "API_KEY" := "secret" ]}.

(** The request does not carry the configured key. *)
Definition unauthorized (r : Request) (w : World) : Prop :=
  Getenv w "API_KEY" <> EmptyString
  /\ HeaderGet r "X-Api-Key" <> Getenv w "API_KEY".

(** The paths of a fork request, as lines 949-951 compute them. *)
Definition forkProjectDir (w : World) (req : gmap string string) : string :=
  Join [getClaudeProjectsDir w; field req "project_name"].

Definition forkSourcePath (w : World) (req : gmap string string) : string :=
  Join [forkProjectDir w req; field req "source_session" +:+ ".jsonl"].

Definition forkTargetPath (w : World) (req : gmap string string) : string :=
  Join [forkProjectDir w req; field req "fork_session" +:+ ".jsonl"].

Definition uuidA : string := "67e137a4-20c0-4d20-a5c6-286372bce5cf".
Definition uuidB : string := "00000000-0000-0000-0000-00000000000b".

Definition forkAB : gmap string string :=
  {[ "source_session" := uuidA; "fork_session" := uuidB;
     "project_name" := "p" ]}.

Definition sessionA : gmap string Node :=
  {[ "/home/u/.claude/projects/p" := Directory;
     "/home/u/.claude/projects/p/67e137a4-20c0-4d20-a5c6-286372bce5cf.jsonl"
       := File "line 1" ]}.




(** Fixtures for the chat endpoint: a request for connection 7, and two
    turns of one session with their channels. *)
Definition chatHi : Request :=
  requestOf "POST" ∅ ∅ (Ok {[ "message" := "hi" ]}).

Definition turnS (ch : nat) (text : string) : Turn :=
  {| sessionID := "S"; projectDir := "/home/u/.claude";
     sessionExists := false;
     queued := {| message := {| Message := text; SessionID := Some "S";
                                ProjectName := None |};
                  response := ch; ctx := Background |} |}.

Import Coordinator.

(** Two handlers of session S both test the flag before either sets it. *)
Definition doubleStart : list Tid :=
  [H 0; H 0; H 1; H 1;      (* both get the queue and enqueue *)
   H 0; H 1;                (* both see processing = false *)
   H 0; H 0; H 1; H 1;      (* both set the flag and start a worker *)
   W 0; W 1;                (* both workers get the queue *)
   W 0; W 1].               (* each dequeues one turn and calls the proxy *)

(** The worker finds the queue empty; a second turn arrives before the
    worker clears the flag. *)
Definition lateArrival : list Tid :=
  [H 0; H 0; H 0; H 0; H 0; (* first turn enqueued, worker started *)
   W 0; W 0; W 0; W 0;      (* worker serves it: one event, close *)
   W 0;                     (* dequeue on the empty queue *)
   H 1; H 1; H 1;           (* second turn enqueued, sees processing *)
   W 0;                     (* worker clears the flag and returns *)
   H 0; H 0].               (* first handler drains its channel *)

(** Both turns served one after the other by one worker. *)
Definition inOrder : list Tid :=
  [H 0; H 0; H 0; H 0; H 0; H 1; H 1; H 1;
   W 0; W 0; W 0; W 0; W 0; W 0; W 0; W 0; W 0;
   H 0; H 0; H 1; H 1].

Definition refused (_ : queuedMessage) : Upstream :=
  DoFailed "connection refused".

Definition noJSON (_ : string) : option (gmap string JValue) := None.

(** The same world [d] nanoseconds later. *)
Definition advance (w : World) (d : Z) : World :=
  {| fs := fs w; cache := cache w; env := env w; wd := wd w;
     now := (now w + d)%Z |}.

(** A byte of a UUID-shaped string: a hexadecimal digit or a dash. *)
Definition uuidByte (c : ascii) : bool := isHex c || Ascii.eqb c "-"%char.

(** [n] successive calls of [dequeue]: the messages they return, in order,
    and the queue they leave; the calls stop at the first empty answer. *)
Fixpoint dequeueN (n : nat) (q : messageQueue)
  : list queuedMessage * messageQueue :=
  match n with
  | O => ([], q)
  | S n' =>
      match dequeue q with
      | (q', Some msg) =>
          let (msgs, q'') := dequeueN n' q' in (msg :: msgs, q'')
      | (q', None) => ([], q')
      end
  end.

(** The session a thread of the coordinator works for. *)
Definition tidSession (st : State) (tid : Tid) : option string :=
  match tid with
  | H i => (fun t => sessionID (hturn t)) <$> handlers st !! i
  | W j => wsession <$> workers st !! j
  end.

(** A schedule that serves one turn with [n] events: the handler enqueues
    and starts the worker; the worker dequeues the turn; each event is sent
    and received; the worker closes the channel, finds the queue empty and
    clears the flag; the handler sees the channel closed and returns. *)
Definition serveOne (n : nat) : list Tid :=
  ([H 0; H 0; H 0; H 0; H 0; W 0; W 0]
   ++ concat (replicate n [W 0; H 0])
   ++ [W 0; W 0; W 0; H 0])%list.

(** The state of a run with one handler and one worker of the turn [t]. *)
Definition oneTurnState (t : Turn) (q : messageQueue) (c : Chan)
    (hp : HandlerPc) (rc : list sseEvent) (wp : WorkerPc) : State :=
  {| queues := <[sessionID t := q]> ∅;
     chans := <[response (queued t) := c]> ∅;
     handlers := [{| hturn := t; hpc := hp; received := rc |}];
     workers := [{| wsession := sessionID t; wdir := projectDir t;
                    wpc := wp |}] |}.

(** A handler of session S about to get its queue while session T has a
    worker. *)
Definition busyT : State :=
  {| queues := {[ "T" := {| messages := []; processing := true |} ]};
     chans := ∅;
     handlers := [{| hturn := turnS 1 "one"; hpc := HGetQueue;
                     received := [] |}];
     workers := [] |}.

(** A state with the one handler of turn [t] and the given workers. *)
Definition handlerState (t : Turn) (qs : gmap string messageQueue)
    (cs : gmap nat Chan) (hp : HandlerPc) (rc : list sseEvent)
    (ws : list WorkerThread) : State :=
  {| queues := qs; chans := cs;
     handlers := [{| hturn := t; hpc := hp; received := rc |}];
     workers := ws |}.

(** The worker the handler of turn [t] starts. *)
Definition workerOf (t : Turn) (wp : WorkerPc) : WorkerThread :=
  {| wsession := sessionID t; wdir := projectDir t; wpc := wp |}.

(** The number of line feeds of a body. *)
Fixpoint countLF (s : string) : nat :=
  match s with
  | EmptyString => 0
  | String c s' => (if Ascii.eqb c lf then 1 else 0) + countLF s'
  end.

(** A path element [Clean] keeps as it is: not empty, not the dot, not two
    dots, and without a slash. *)
Definition realElem (e : string) : bool :=
  negb (String.eqb e EmptyString) && negb (String.eqb e ".")
  && negb (String.eqb e "..") && negb (ContainsAny e "/").


(** The entry [k] is the path [p] or lies below it. *)
Definition under (p k : string) : bool :=
  String.eqb k p || HasPrefix k (p +:+ "/").


(** ** Read-only endpoints *)

(** An entry of a listing that is a session file (a regular file with
    extension .jsonl). *)
Definition isSessionEntry (e : string * Node) : bool :=
  negb (Os.IsDir (snd e)) && String.eqb (Ext (fst e)) ".jsonl".

(** The sessions of a directory listing (main.go:758-767). *)
Fixpoint sessionsOf (projectName : string) (entries : list (string * Node))
  : list SessionInfo :=
  match entries with
  | [] => []
  | file :: rest =>
      if negb (Os.IsDir (snd file)) && String.eqb (Ext (fst file)) ".jsonl"
      then
        let sessionID := TrimSuffix (fst file) ".jsonl" in
        {| ID := sessionID; Path := Join [projectName; sessionID] |}
        :: sessionsOf projectName rest
      else sessionsOf projectName rest
  end.

(** The answer of the session list: the sessions (status 200), or the
    error of [os.ReadDir] (status 500). *)
Inductive ListReply : Type :=
| Sessions (ss : list SessionInfo)
| ListFailed (e : Errno).

(** GET /api/projects/{projectName}/sessions (main.go:719); the route has
    no middleware. *)
Definition listSessionsHandler (r : Request) (w : World) : ListReply * World :=
  let projectName := PathValue r "projectName" in
  match getCachedSessions w projectName with
  | Some cachedSessions => (Sessions cachedSessions, w)
  | None =>
      let projectPath := Join [getClaudeProjectsDir w; projectName] in
      match Listing.ReadDir (fs w) projectPath with
      | inl e => (ListFailed e, w)
      | inr entries =>
          let ss := sessionsOf projectName entries in
          (Sessions ss, updateSessionCache w projectName ss)
      end
  end.

(** The count of session files of a listing (main.go:626-631). *)
Fixpoint countSessions (entries : list (string * Node)) : nat :=
  match entries with
  | [] => 0
  | file :: rest =>
      if negb (Os.IsDir (snd file)) && String.eqb (Ext (fst file)) ".jsonl"
      then S (countSessions rest)
      else countSessions rest
  end.

(** One project of the project list: its name, its path (the name again)
    and its session count. *)
Record ProjectInfo : Type := {
  projName : string;
  projPath : string;
  sessionCount : nat
}.

(** The loop of the project list (main.go:617-639): directories only, and
    a directory that cannot be read is skipped. *)
Fixpoint projectsOf (f : gmap string Node) (projectsPath : string)
    (entries : list (string * Node)) : list ProjectInfo :=
  match entries with
  | [] => []
  | entry :: rest =>
      if Os.IsDir (snd entry) then
        match Listing.ReadDir f (Join [projectsPath; fst entry]) with
        | inl _ => projectsOf f projectsPath rest
        | inr dirEntries =>
            {| projName := fst entry; projPath := fst entry;
               sessionCount := countSessions dirEntries |}
            :: projectsOf f projectsPath rest
        end
      else projectsOf f projectsPath rest
  end.

(** GET /api/projects (main.go:606): the projects (status 200), or the
    error of [os.ReadDir] on the projects root (status 500). *)
Definition listProjectsHandler (w : World) : sum Errno (list ProjectInfo) :=
  let projectsPath := getClaudeProjectsDir w in
  match Listing.ReadDir (fs w) projectsPath with
  | inl e => inl e
  | inr entries => inr (projectsOf (fs w) projectsPath entries)
  end.

(** [bufio.Scanner] with its default split function [ScanLines] and its
    default buffer limit of 64 KiB, over the bytes of a file. *)
Definition maxScanTokenSize : N := 65536.

(** [dropCR]: one trailing carriage return is removed. *)
Definition dropCR (line : string) : string :=
  TrimSuffix line (String cr EmptyString).

(** The lines as the line feeds cut them; nothing follows a final line
    feed, and an empty input has no line. *)
Definition rawLines (data : string) : list string :=
  let parts := splitOn lf data in
  match last parts with
  | Some EmptyString => removelast parts
  | _ => parts
  end.

(** The tokens [Scan] delivers, and whether it stopped with
    [ErrTooLong]: a line of 64 KiB or more before its line feed does not
    fit the buffer. *)
Fixpoint scanTokens (raw : list string) : list string * bool :=
  match raw with
  | [] => ([], false)
  | line :: rest =>
      if (maxScanTokenSize <=? len line)%N then ([], true)
      else let (lines, tooLong) := scanTokens rest in
           (dropCR line :: lines, tooLong)
  end.

Definition scanLines (data : string) : list string * bool :=
  scanTokens (rawLines data).

(** The loop of the live-session endpoint (main.go:551-559): the session
    file and its modification time kept so far.  [modTime] is
    [entry.Info()] followed by [ModTime().Unix()], [None] when [Info]
    fails. *)
Fixpoint mostRecent (claudeDir : string) (modTime : string -> option Z)
    (entries : list (string * Node)) (sessionFile : string)
    (mostRecentTime : Z) : string * Z :=
  match entries with
  | [] => (sessionFile, mostRecentTime)
  | entry :: rest =>
      if negb (Os.IsDir (snd entry)) && String.eqb (Ext (fst entry)) ".jsonl"
      then
        match modTime (fst entry) with
        | Some t =>
            if (mostRecentTime <? t)%Z
            then mostRecent claudeDir modTime rest
                   (Join [claudeDir; fst entry]) t
            else mostRecent claudeDir modTime rest sessionFile mostRecentTime
        | None => mostRecent claudeDir modTime rest sessionFile mostRecentTime
        end
      else mostRecent claudeDir modTime rest sessionFile mostRecentTime
  end.




(** The answers of the session read: the lines with the file path and
    the line count, or an error with its status. *)
Inductive ReadReply : Type :=
| SessionLines (lines : list string) (session_file : string) (total : nat)
| ReadFailed (msg : string) (code : Z).

(** GET /api/projects/{projectName}/sessions/{sessionID} (main.go:787),
    inside [corsMiddleware]. *)
Definition readSessionHandler (r : Request) (w : World) : ReadReply :=
  let projectName := PathValue r "projectName" in
  let sessionID := PathValue r "sessionID" in
  let sessionFile :=
    Join [getClaudeProjectsDir w; projectName; sessionID +:+ ".jsonl"] in
  match validatePath w sessionFile (getClaudeProjectsDir w) with
  | Some _ => ReadFailed "Invalid path" StatusBadRequest
  | None =>
      match validateFileOperation w sessionFile "read" with
      | Some e => ReadFailed ("Invalid file operation: " +:+ e) StatusBadRequest
      | None =>
          match Os.Stat (fs w) sessionFile with
          | inl _ => ReadFailed "Session not found" StatusNotFound
          | inr Directory =>
              ReadFailed (pathError "read" sessionFile EISDIR)
                StatusInternalServerError
          | inr (File data) =>
              let (lines, tooLong) := scanLines data in
              if tooLong
              then ReadFailed "bufio.Scanner: token too long"
                     StatusInternalServerError
              else SessionLines lines sessionFile (length lines)
          end
      end
  end.

(** A session file written as lines, each followed by a line feed. *)
Definition jsonl (lines : list string) : string :=
  fold_right (fun l rest => l +:+ String lf rest) EmptyString lines.

(** A line the scanner returns as it is: shorter than 64 KiB, without a
    line feed, not ending with a carriage return. *)
Definition plainLine (l : string) : Prop :=
  (len l < maxScanTokenSize)%N /\ mem_byte lf l = false
  /\ HasSuffix l (String cr EmptyString) = false.

(** * Properties *)

(** ** Sanity checks of the library models *)

Example Clean_dotdot : Filepath.Clean "/base/a/../b" = "/base/b".
Proof. reflexivity. Qed.

Example Clean_relative_up : Filepath.Clean "a/../../b/./c//" = "../b/c".
Proof. reflexivity. Qed.

Example Clean_root_up : Filepath.Clean "/../a" = "/a".
Proof. reflexivity. Qed.

Example Join_session :
  Filepath.Join ["/home/u/.claude/projects"; "p"; "s.jsonl"]
  = "/home/u/.claude/projects/p/s.jsonl".
Proof. reflexivity. Qed.

Example Ext_jsonl : Filepath.Ext "/a.b/c.tar.jsonl" = ".jsonl".
Proof. reflexivity. Qed.

Example Ext_none : Filepath.Ext "/a.b/c" = EmptyString.
Proof. reflexivity. Qed.

Example TrimSpace_line :
  TrimSpace (String cr (" data: x " +:+ String lf EmptyString)) = "data: x".
Proof. reflexivity. Qed.

Example isValidUUID_yes :
  isValidUUID "67e137a4-20c0-4d20-a5c6-286372bce5cf" = true.
Proof. reflexivity. Qed.

Example isValidUUID_trailing :
  isValidUUID "67e137a4-20c0-4d20-a5c6-286372bce5cf0" = false.
Proof. reflexivity. Qed.

(** ** White space *)

Lemma space2_not_ascii c d : space2 c d = true -> asciiSpace c = false.
Proof.
  unfold space2, asciiSpace. intros Hs.
  apply andb_true_iff in Hs as [Hc _]. apply N.eqb_eq in Hc.
  cbv zeta. rewrite Hc. reflexivity.
Qed.

Lemma space3_lead c d e :
  space3 c d e = true -> asciiSpace c = false /\ space2 c d = false.
Proof.
  unfold space3, asciiSpace, space2. cbv zeta. intros Hs.
  destruct (N.eqb_spec (byte c) 225) as [->|].
  { split; reflexivity. }
  destruct (N.eqb_spec (byte c) 226) as [->|].
  { split; reflexivity. }
  destruct (N.eqb_spec (byte c) 227) as [->|].
  { split; reflexivity. }
  simpl in Hs. discriminate.
Qed.

Lemma trimLeft_space_rune r rest :
  isSpaceRune r = true -> trimLeft (r ++ rest) = trimLeft rest.
Proof.
  destruct r as [|c [|d [|e [|x r]]]]; simpl; try discriminate.
  - intros ->. reflexivity.
  - intros Hs. rewrite (space2_not_ascii _ _ Hs), Hs. reflexivity.
  - intros Hs. destruct (space3_lead _ _ _ Hs) as [-> ->].
    rewrite Hs. reflexivity.
Qed.

Lemma trimLeft_spaces runes :
  Forall (fun r => isSpaceRune r = true) runes -> trimLeft (concat runes) = [].
Proof.
  induction 1 as [|r runes Hr _ IH]; [reflexivity|].
  simpl concat. rewrite trimLeft_space_rune by exact Hr. exact IH.
Qed.

Lemma TrimSpace_whitespaceOnly s :
  whitespaceOnly s -> TrimSpace s = EmptyString.
Proof.
  intros (runes & Hr & ->). unfold TrimSpace.
  rewrite list_ascii_of_string_of_list_ascii, (trimLeft_spaces _ Hr).
  reflexivity.
Qed.

(** ** Validators *)

Lemma firstDangerous_None msg ds :
  firstDangerous msg ds = None -> Forall (fun d => Contains msg d = false) ds.
Proof.
  induction ds as [|d ds IH]; simpl; [constructor|].
  destruct (Contains msg d) eqn:Hd; [discriminate|].
  intros H. constructor; auto.
Qed.

(** C10: an accepted message is returned byte for byte, and it is within
    the length limit, not blank and free of every entry of [dangerous];
    a message made of white space only is rejected. *)
Theorem sanitizeMessage_validates_only (msg : string) :
  (forall out, sanitizeMessage msg = Ok out ->
     out = msg /\ (len msg <= 10000)%N /\ TrimSpace msg <> EmptyString
     /\ Forall (fun d => Contains msg d = false) dangerous)
  /\ (whitespaceOnly msg -> exists e, sanitizeMessage msg = Err e).
Proof.
  unfold sanitizeMessage. split.
  - intros out.
    destruct (N.ltb_spec 10000 (len msg)) as [|Hlen]; [discriminate|].
    destruct (String.eqb_spec (TrimSpace msg) EmptyString) as [|Hne];
      [discriminate|].
    destruct (firstDangerous msg dangerous) eqn:Hd; [discriminate|].
    intros [= <-]. repeat split; auto using firstDangerous_None.
  - intros Hws. rewrite (TrimSpace_whitespaceOnly _ Hws). simpl.
    destruct (10000 <? len msg)%N; eauto.
Qed.

Lemma sanitizeMessage_validates_only_witness :
  ("hello world" = "hello world"
   /\ (len "hello world" <= 10000)%N
   /\ TrimSpace "hello world" <> EmptyString
   /\ Forall (fun d => Contains "hello world" d = false) dangerous)
  /\ (exists e, sanitizeMessage "   " = Err e).
Proof.
  split.
  - apply (proj1 (sanitizeMessage_validates_only "hello world")).
    reflexivity.
  - apply (proj2 (sanitizeMessage_validates_only "   ")).
    exists [[" "%char]; [" "%char]; [" "%char]].
    split; [repeat constructor | reflexivity].
Defined.

Lemma mem_byte_In c chars :
  mem_byte c chars = true <-> In c (list_ascii_of_string chars).
Proof.
  induction chars as [|d chars IH]; simpl.
  - split; [discriminate | tauto].
  - rewrite orb_true_iff, IH, Ascii.eqb_eq. intuition congruence.
Qed.

Lemma ContainsAny_mono name a b :
  (forall c, mem_byte c a = true -> mem_byte c b = true) ->
  ContainsAny name a = true -> ContainsAny name b = true.
Proof.
  intros Hab. induction name as [|c name IH]; simpl; [discriminate|].
  rewrite !orb_true_iff. intros [H|H]; auto.
Qed.

Lemma Contains_dotdot_any name chars :
  mem_byte "."%char chars = true ->
  Contains name ".." = true -> ContainsAny name chars = true.
Proof.
  intros Hdot. induction name as [|c name IH]; simpl; [discriminate|].
  rewrite !orb_true_iff. intros [H|H]; [|auto].
  left. apply andb_true_iff in H as [H _].
  apply Ascii.eqb_eq in H. subst c. exact Hdot.
Qed.

Lemma forbidden_sets_agree c :
  mem_byte c projectNameForbidden
  = mem_byte c (String "."%char documentedForbidden).
Proof.
  apply eq_true_iff_eq. rewrite !mem_byte_In.
  unfold projectNameForbidden, documentedForbidden. simpl. tauto.
Qed.

Lemma ContainsAny_forbidden name :
  ContainsAny name projectNameForbidden
  = ContainsAny name (String "."%char documentedForbidden).
Proof.
  induction name as [|c name IH]; simpl; [reflexivity|].
  rewrite IH. f_equal. apply forbidden_sets_agree.
Qed.

(** C8, as the code has it: a name of at most 255 bytes that is not blank
    after trimming white space and contains no dot and none of the
    documented characters is returned unchanged; a name that is too long,
    made of white space only, or that contains a documented character or
    two consecutive dots, is rejected. *)
Theorem sanitizeProjectName_accepts_clean_names (name : string) :
  ((len name <= 255)%N ->
   TrimSpace name <> EmptyString ->
   ContainsAny name (String "."%char documentedForbidden) = false ->
   sanitizeProjectName name = Ok name)
  /\ ((255 < len name)%N \/ whitespaceOnly name
      \/ ContainsAny name documentedForbidden = true
      \/ Contains name ".." = true ->
      exists e, sanitizeProjectName name = Err e).
Proof.
  unfold sanitizeProjectName. split.
  - intros Hlen Hne Hany. rewrite ContainsAny_forbidden, Hany.
    destruct (N.ltb_spec 255 (len name)); [lia|].
    destruct (String.eqb_spec (TrimSpace name) EmptyString); [tauto|].
    reflexivity.
  - intros Hbad.
    destruct (ContainsAny name projectNameForbidden) eqn:Hany; [eauto|].
    destruct (N.ltb_spec 255 (len name)) as [|Hle]; [eauto|].
    destruct Hbad as [Hlong | [Hws | [Hdoc | Hdd]]].
    + lia.
    + rewrite (TrimSpace_whitespaceOnly _ Hws). simpl. eauto.
    + rewrite (ContainsAny_mono name documentedForbidden projectNameForbidden)
        in Hany; [discriminate | | exact Hdoc].
      intros c. rewrite forbidden_sets_agree. simpl.
      intros ->. apply orb_true_r.
    + rewrite (Contains_dotdot_any name projectNameForbidden) in Hany;
        [discriminate | reflexivity | exact Hdd].
Qed.

Lemma sanitizeProjectName_accepts_clean_names_witness :
  sanitizeProjectName "-Users-2a--factory" = Ok "-Users-2a--factory"
  /\ (exists e, sanitizeProjectName "a/../b" = Err e).
Proof.
  split.
  - apply (proj1 (sanitizeProjectName_accepts_clean_names "-Users-2a--factory"));
      [vm_compute; discriminate | vm_compute; discriminate | reflexivity].
  - apply (proj2 (sanitizeProjectName_accepts_clean_names "a/../b")).
    right. right. left. reflexivity.
Defined.

(** C8 as stated fails: the one-space name is non-empty, short, and has
    neither a documented character nor two dots, and it is rejected. *)
Lemma sanitizeProjectName_rejects_blank_name :
  " " <> EmptyString
  /\ (len " " <= 255)%N
  /\ ContainsAny " " documentedForbidden = false
  /\ Contains " " ".." = false
  /\ sanitizeProjectName " " = Err "project name cannot be empty".
Proof.
  repeat split; try reflexivity; [discriminate | vm_compute; discriminate].
Qed.

(** A name with a single dot is rejected too: the character set of line
    362 contains the dot. *)
Example sanitizeProjectName_single_dot :
  sanitizeProjectName "notes.v2" = Err "invalid characters in project name".
Proof. reflexivity. Qed.

(** ** Path validation *)

Lemma validatePath_None w path base :
  validatePath w path base = None <->
  Contains (Clean path) ".." = false
  /\ exists absPath absBase,
       Abs (wd w) (Clean path) = Ok absPath
       /\ Abs (wd w) base = Ok absBase
       /\ HasPrefix absPath absBase = true.
Proof.
  unfold validatePath. split.
  - destruct (Contains (Clean path) "..") eqn:Hc; [discriminate|].
    destruct (Abs (wd w) (Clean path)) as [ap|]; [|discriminate].
    destruct (Abs (wd w) base) as [ab|]; [|discriminate].
    destruct (HasPrefix ap ab) eqn:Hp; [|discriminate].
    intros _. eauto 6.
  - intros (-> & ap & ab & -> & -> & ->). reflexivity.
Qed.

(** C7, as the code has it: a path whose cleaned form contains two
    consecutive dots is rejected whatever its absolute form is, and so is a
    path whose cleaned absolute form does not start with the absolute form
    of the allowed root. *)
Theorem validatePath_rejects (w : World) (path basePath : string) :
  (Contains (Clean path) ".." = true ->
   validatePath w path basePath = Some "invalid path: contains '..'")
  /\ (forall absPath absBase,
        Abs (wd w) (Clean path) = Ok absPath ->
        Abs (wd w) basePath = Ok absBase ->
        HasPrefix absPath absBase = false ->
        exists e, validatePath w path basePath = Some e).
Proof.
  unfold validatePath. split.
  - intros ->. reflexivity.
  - intros ap ab -> -> ->.
    destruct (Contains (Clean path) ".."); eauto.
Qed.

Lemma validatePath_rejects_witness :
  validatePath (worldOf ∅ ∅ homeEnv) "../etc/passwd" "/home/u/.claude/projects"
  = Some "invalid path: contains '..'"
  /\ exists e,
       validatePath (worldOf ∅ ∅ homeEnv) "/etc/passwd"
         "/home/u/.claude/projects" = Some e.
Proof.
  split.
  - apply (proj1 (validatePath_rejects (worldOf ∅ ∅ homeEnv) "../etc/passwd"
                    "/home/u/.claude/projects")).
    reflexivity.
  - apply (proj2 (validatePath_rejects (worldOf ∅ ∅ homeEnv) "/etc/passwd"
                    "/home/u/.claude/projects") "/etc/passwd"
             "/home/u/.claude/projects"); reflexivity.
Defined.

(** C7 as stated fails: this path contains two dots before cleaning and
    is accepted, because the test runs on the cleaned path. *)
Lemma validatePath_accepts_inner_dotdot :
  Contains "/home/u/.claude/projects/a/../b" ".." = true
  /\ validatePath (worldOf ∅ ∅ homeEnv) "/home/u/.claude/projects/a/../b"
       "/home/u/.claude/projects" = None.
Proof. split; reflexivity. Qed.

(** ** Session deletion *)

(** Whenever the session file is absent, the handler answers 400: the
    file validation of line 851 runs before the existence test of line 858
    and fails first. *)
Lemma deleteSession_absent_400 r w :
  Os.Stat (fs w)
    (Join [getClaudeProjectsDir w; PathValue r "projectName";
           PathValue r "sessionID" +:+ ".jsonl"]) = inl ENOENT ->
  deleteSessionHandler r w
  = (httpError "Invalid path" StatusBadRequest, w)
  \/ deleteSessionHandler r w
     = (httpError "Invalid file operation: file not found" StatusBadRequest, w).
Proof.
  intros Hst. unfold deleteSessionHandler.
  destruct (validatePath _ _ _); [left; reflexivity|].
  right. unfold validateFileOperation. rewrite Hst. reflexivity.
Qed.

(** A delete that is answered 200 has removed the file and dropped the
    cache entry of the project. *)
Lemma deleteSession_success_invalidates r w o w' :
  deleteSessionHandler r w = (o, w') ->
  statusOf o = StatusOK ->
  fs w' !! Clean (Join [getClaudeProjectsDir w; PathValue r "projectName";
                        PathValue r "sessionID" +:+ ".jsonl"]) = None
  /\ cache w' !! PathValue r "projectName" = None.
Proof.
  intros Hrun Hok. unfold deleteSessionHandler in Hrun. cbv zeta in Hrun.
  set (sessionFile := Join [getClaudeProjectsDir w; PathValue r "projectName";
                            PathValue r "sessionID" +:+ ".jsonl"]) in *.
  destruct (validatePath _ _ _);
    [injection Hrun as <- <-; discriminate Hok|].
  destruct (validateFileOperation _ _ _);
    [injection Hrun as <- <-; discriminate Hok|].
  assert (Hrm : match Os.Remove (fs w) sessionFile with
                | inl _ => False
                | inr f' =>
                    w' = invalidateSessionCache (set_fs w f')
                           (PathValue r "projectName")
                end).
  { destruct (Os.Stat (fs w) sessionFile) as [[]|];
      try (injection Hrun as <- <-; discriminate Hok);
      destruct (Os.Remove (fs w) sessionFile);
      injection Hrun as <- <-; try discriminate Hok; reflexivity. }
  clear Hrun. unfold Os.Remove in Hrm.
  destruct (fs w !! Clean sessionFile) as [[d|]|]; [| |contradiction].
  - subst w'. simpl. split; apply lookup_delete_eq.
  - destruct (Os.hasChildren _ _); [contradiction|].
    subst w'. simpl. split; apply lookup_delete_eq.
Qed.

(** C5 on a concrete run: deleting an existing session answers 200,
    removes the file and drops the cache entry of the project; deleting it
    again answers 400, not 404. *)
Theorem deleteSession_twice_400 :
  let w0 := worldOf oneSession cachedP homeEnv in
  let '(o1, w1) := deleteSessionRoute (deleteS ∅) w0 in
  let '(o2, w2) := deleteSessionRoute (deleteS ∅) w1 in
  statusOf o1 = StatusOK
  /\ fs w1 !! sessionPath = None
  /\ cache w1 !! "p" = None
  /\ o2 = httpError "Invalid file operation: file not found" StatusBadRequest
  /\ statusOf o2 <> StatusNotFound.
Proof. vm_compute. repeat split; discriminate. Qed.

(** ** Authentication *)

Lemma authMiddleware_unauthorized next r w :
  unauthorized r w ->
  authMiddleware next r w = (httpError "Unauthorized" StatusUnauthorized, w).
Proof.
  intros [Hset Hne]. unfold authMiddleware.
  destruct (String.eqb_spec (Getenv w "API_KEY") EmptyString); [tauto|].
  destruct (String.eqb_spec (HeaderGet r "X-Api-Key") (Getenv w "API_KEY"));
    [tauto | reflexivity].
Qed.

(** The four routes wrapped in [authMiddleware] answer 401 and leave the
    world as it was. *)
Lemma authenticated_routes_reject allow conn ch fresh r w :
  unauthorized r w ->
  let denied := (httpError "Unauthorized" StatusUnauthorized, w) in
  deleteProjectRoute r w = denied
  /\ clearHistoryRoute r w = denied
  /\ forkSessionRoute r w = denied
  /\ chatRoute allow conn ch fresh r w = denied.
Proof.
  intros Hu. repeat split; apply authMiddleware_unauthorized, Hu.
Qed.

(** C6 on a concrete run: with API_KEY set and no X-API-Key header, the
    session-delete route answers 200, removes the file and drops the cache
    entry. *)
Theorem deleteSession_ignores_api_key :
  let w0 := worldOf oneSession cachedP keyedEnv in
  let '(o, w1) := deleteSessionRoute (deleteS ∅) w0 in
  Getenv w0 "API_KEY" = "secret"
  /\ HeaderGet (deleteS ∅) "X-Api-Key" = EmptyString
  /\ statusOf o = StatusOK
  /\ fs w0 !! sessionPath = Some (File "{}")
  /\ fs w1 !! sessionPath = None
  /\ cache w1 !! "p" = None.
Proof. vm_compute. repeat split. Qed.

(** ** Fork *)

Lemma mkdirAllRev_keeps f rooted els f' :
  Os.mkdirAllRev f rooted els = inr f' ->
  forall k n, f !! k = Some n -> f' !! k = Some n.
Proof.
  revert f'. induction els as [|e parent IH]; intros f' Hmk k n Hk.
  - simpl in Hmk. congruence.
  - simpl in Hmk.
    destruct (f !! pathOf rooted (rev parent ++ [e])) as [[?|]|] eqn:Hp;
      [discriminate | congruence |].
    destruct (Os.mkdirAllRev f rooted parent) as [|f1] eqn:Hrec;
      [discriminate|].
    injection Hmk as <-.
    destruct (decide (pathOf rooted (rev parent ++ [e]) = k)) as [<-|Hne].
    + congruence.
    + rewrite lookup_insert_ne by exact Hne. eauto.
Qed.

Lemma MkdirAll_keeps f path f' :
  Os.MkdirAll f path = inr f' ->
  forall k n, f !! k = Some n -> f' !! k = Some n.
Proof. apply mkdirAllRev_keeps. Qed.

Lemma ReadFile_inr f path data :
  Os.ReadFile f path = inr data ->
  (String.eqb (Clean path) "/" || String.eqb (Clean path) ".") = false
  /\ f !! Clean path = Some (File data).
Proof.
  unfold Os.ReadFile, Os.lookupNode.
  destruct (String.eqb (Clean path) "/" || String.eqb (Clean path) ".");
    [discriminate|].
  destruct (f !! Clean path) as [[d|]|]; try discriminate.
  intros [= ->]. auto.
Qed.

Lemma ReadFile_lookup f path data :
  (String.eqb (Clean path) "/" || String.eqb (Clean path) ".") = false ->
  f !! Clean path = Some (File data) ->
  Os.ReadFile f path = inr data.
Proof.
  intros Hroot Hf. unfold Os.ReadFile, Os.lookupNode.
  rewrite Hroot, Hf. reflexivity.
Qed.

Lemma WriteFile_inr f path data f' :
  Os.WriteFile f path data = inr f' ->
  f' = <[Clean path := File data]> f
  /\ (String.eqb (Clean path) "/" || String.eqb (Clean path) ".") = false.
Proof.
  unfold Os.WriteFile. unfold Os.lookupNode at 1.
  destruct (String.eqb (Clean path) "/" || String.eqb (Clean path) ".");
    [discriminate|].
  intros H. split; [|reflexivity].
  destruct (f !! Clean path) as [[?|]|];
    try discriminate;
    destruct (Os.lookupNode f (Filepath.Dir path)) as [[?|]|];
    congruence.
Qed.

(** C9: when a fork request is answered 200, the source was readable and
    the target absent before, both ids are UUID-shaped, and afterwards the
    target reads back exactly the bytes of the source, which still reads
    the same. *)
Theorem fork_copies_bytes (r : Request) (w w' : World) (o : Outcome)
    (Hpost : method r = "POST")
    (Hrun : forkSessionRoute r w = (o, w'))
    (Hok : statusOf o = StatusOK) :
  exists req data,
    jsonBody r = Ok req
    /\ isValidUUID (field req "source_session") = true
    /\ isValidUUID (field req "fork_session") = true
    /\ Os.ReadFile (fs w) (forkSourcePath w req) = inr data
    /\ Os.Stat (fs w) (forkTargetPath w req) = inl ENOENT
    /\ Os.ReadFile (fs w') (forkTargetPath w req) = inr data
    /\ Os.ReadFile (fs w') (forkSourcePath w req) = inr data
    /\ cache w' !! field req "project_name" = None.
Proof.
  unfold forkSessionRoute, authMiddleware, corsMiddleware in Hrun.
  rewrite Hpost in Hrun. simpl String.eqb in Hrun.
  assert (Hh : forkSessionHandler r w = (o, w')).
  { destruct (String.eqb (Getenv w "API_KEY") EmptyString); [exact Hrun|].
    destruct (negb _); [|exact Hrun].
    injection Hrun as <- <-. discriminate Hok. }
  clear Hrun. unfold forkSessionHandler in Hh.
  destruct (jsonBody r) as [req|e];
    [|injection Hh as <- <-; discriminate Hok].
  exists req. cbv zeta in Hh.
  destruct (isValidUUID (field req "source_session")) eqn:Hsrc;
    [|injection Hh as <- <-; discriminate Hok].
  destruct (isValidUUID (field req "fork_session")) eqn:Hfork;
    [|injection Hh as <- <-; discriminate Hok].
  cbn [negb orb] in Hh.
  destruct (String.eqb (field req "project_name") EmptyString);
    [injection Hh as <- <-; discriminate Hok|].
  change (Join [getClaudeProjectsDir w; field req "project_name"])
    with (forkProjectDir w req) in Hh.
  change (Join [forkProjectDir w req; field req "source_session" +:+ ".jsonl"])
    with (forkSourcePath w req) in Hh.
  change (Join [forkProjectDir w req; field req "fork_session" +:+ ".jsonl"])
    with (forkTargetPath w req) in Hh.
  destruct (validateFileOperation w (forkSourcePath w req) "read");
    [injection Hh as <- <-; discriminate Hok|].
  destruct (Os.Stat (fs w) (forkTargetPath w req)) as [en|] eqn:Hst;
    [|injection Hh as <- <-; discriminate Hok].
  assert (en = ENOENT) as ->.
  { unfold Os.Stat in Hst. destruct (Os.lookupNode _ _); congruence. }
  destruct (Os.ReadFile (fs w) (forkSourcePath w req)) as [|data] eqn:Hrd;
    [injection Hh as <- <-; discriminate Hok|].
  exists data.
  destruct (Os.MkdirAll (fs w) (forkProjectDir w req)) as [|f1] eqn:Hmk;
    [injection Hh as <- <-; discriminate Hok|].
  destruct (Os.WriteFile f1 (forkTargetPath w req) data) as [|f2] eqn:Hwr;
    [injection Hh as <- <-; discriminate Hok|].
  injection Hh as <- <-. simpl.
  apply WriteFile_inr in Hwr as [-> Hnroot].
  apply ReadFile_inr in Hrd as Hsrcfile. destruct Hsrcfile as [Hsroot Hsf].
  repeat split; auto.
  - apply ReadFile_lookup; [exact Hnroot|]. apply lookup_insert_eq.
  - apply ReadFile_lookup; [exact Hsroot|].
    destruct (decide (Clean (forkTargetPath w req)
                      = Clean (forkSourcePath w req))) as [Heq|Hne].
    + rewrite Heq. apply lookup_insert_eq.
    + rewrite lookup_insert_ne by exact Hne.
      eapply MkdirAll_keeps; eauto.
  - apply lookup_delete_eq.
Qed.

Lemma fork_copies_bytes_witness :
  exists req data,
    jsonBody (requestOf "POST" ∅ ∅ (Ok forkAB)) = Ok req
    /\ isValidUUID (field req "source_session") = true
    /\ isValidUUID (field req "fork_session") = true
    /\ Os.ReadFile sessionA (forkSourcePath (worldOf sessionA ∅ homeEnv) req)
       = inr data
    /\ Os.Stat sessionA (forkTargetPath (worldOf sessionA ∅ homeEnv) req)
       = inl ENOENT
    /\ Os.ReadFile
         (fs (snd (forkSessionRoute (requestOf "POST" ∅ ∅ (Ok forkAB))
                     (worldOf sessionA ∅ homeEnv))))
         (forkTargetPath (worldOf sessionA ∅ homeEnv) req) = inr data
    /\ Os.ReadFile
         (fs (snd (forkSessionRoute (requestOf "POST" ∅ ∅ (Ok forkAB))
                     (worldOf sessionA ∅ homeEnv))))
         (forkSourcePath (worldOf sessionA ∅ homeEnv) req) = inr data
    /\ cache (snd (forkSessionRoute (requestOf "POST" ∅ ∅ (Ok forkAB))
                     (worldOf sessionA ∅ homeEnv)))
         !! field req "project_name" = None.
Proof.
  apply (fork_copies_bytes (requestOf "POST" ∅ ∅ (Ok forkAB))
           (worldOf sessionA ∅ homeEnv)
           (snd (forkSessionRoute (requestOf "POST" ∅ ∅ (Ok forkAB))
                   (worldOf sessionA ∅ homeEnv)))
           (fst (forkSessionRoute (requestOf "POST" ∅ ∅ (Ok forkAB))
                   (worldOf sessionA ∅ homeEnv)))).
  - reflexivity.
  - apply surjective_pairing.
  - vm_compute. reflexivity.
Defined.

Example fork_run :
  let w0 := worldOf sessionA ∅ homeEnv in
  let '(o, w1) := forkSessionRoute (requestOf "POST" ∅ ∅ (Ok forkAB)) w0 in
  statusOf o = StatusOK
  /\ fs w1 !! "/home/u/.claude/projects/p/00000000-0000-0000-0000-00000000000b.jsonl"
     = Some (File "line 1")
  /\ statusOf (fst (forkSessionRoute (requestOf "POST" ∅ ∅ (Ok forkAB)) w1))
     = StatusConflict.
Proof. vm_compute. repeat split. Qed.

(** ** Upstream proxy *)

Section ProxyFacts.

Variable unmarshal : string -> option (gmap string JValue).

Lemma readLoop_flat sid lines sent :
  readLoop unmarshal sid lines sent
  = (sent ++ flat_map (lineEvents unmarshal sid) lines)%list.
Proof.
  revert sent. induction lines as [|l lines IH]; intros sent; simpl.
  - symmetry. apply app_nil_r.
  - rewrite IH, <- app_assoc. reflexivity.
Qed.




End ProxyFacts.




Example http_error_event :
  executeClaudeCLI (fun _ => None) "s" (Responded 500 "boom")
  = [errorEvent "Erro HTTP 500: boom"].
Proof. reflexivity. Qed.

(** A stream cut in the middle of its second line: the text of the first
    line is the last event, and no error event follows. *)
Example cut_stream_ends_with_text unmarshal :
  unmarshal "HI" = Some {[ "type" := JString "text";
                           "content" := JString "hi" ]} ->
  executeClaudeCLI unmarshal "s"
    (Responded StatusOK ("data: HI" +:+ String lf "data: DO"))
  = [textEvent "hi"].
Proof. intros Hd. vm_compute. rewrite Hd. reflexivity. Qed.

(** An undecodable line is skipped without an error event. *)
Example undecodable_line_is_skipped :
  executeClaudeCLI (fun _ => None) "s"
    (Responded StatusOK ("data: {" +:+ String lf EmptyString))
  = [].
Proof. reflexivity. Qed.

(** ** The context of a turn *)

Lemma authMiddleware_streaming next r w t w' :
  authMiddleware next r w = (Streaming t, w') -> next r w = (Streaming t, w').
Proof.
  unfold authMiddleware.
  destruct (String.eqb _ EmptyString); [tauto|].
  destruct (negb _); [discriminate | tauto].
Qed.

Lemma rateLimitMiddleware_streaming allow next r w t w' :
  rateLimitMiddleware allow next r w = (Streaming t, w') ->
  next r w = (Streaming t, w').
Proof.
  unfold rateLimitMiddleware. destruct (negb _); [discriminate | tauto].
Qed.

Lemma corsMiddleware_streaming next r w t w' :
  corsMiddleware next r w = (Streaming t, w') -> next r w = (Streaming t, w').
Proof.
  unfold corsMiddleware. destruct (String.eqb _ _); [discriminate | tauto].
Qed.

Lemma chatHandler_ctx conn ch fresh r w t w' :
  chatHandler conn ch fresh r w = (Streaming t, w') ->
  ctx (queued t) = Background /\ response (queued t) = ch.
Proof.
  unfold chatHandler, httpError, jsonOK. intros Hrun.
  repeat match type of Hrun with
         | context [match ?x with _ => _ end] => destruct x
         end;
    inversion Hrun; subst; split; reflexivity.
Qed.

(** C4, as the code has it: every turn the chat route enqueues carries
    the background context, which no closed connection cancels. *)
Theorem chat_turn_carries_background (allow : string -> bool)
    (conn ch : nat) (fresh : string) (r : Request) (w w' : World) (t : Turn)
    (Hrun : chatRoute allow conn ch fresh r w = (Streaming t, w')) :
  ctx (queued t) = Background
  /\ forall closed : list nat, ctxDone closed (ctx (queued t)) = false.
Proof.
  apply authMiddleware_streaming, rateLimitMiddleware_streaming,
    corsMiddleware_streaming, chatHandler_ctx in Hrun as [Hctx _].
  rewrite Hctx. split; reflexivity.
Qed.

Lemma chat_turn_carries_background_witness :
  exists t,
    fst (chatRoute (fun _ => true) 7 0 uuidA chatHi (worldOf ∅ ∅ homeEnv))
    = Streaming t
    /\ ctx (queued t) = Background
    /\ forall closed : list nat, ctxDone closed (ctx (queued t)) = false.
Proof.
  eexists. split; [vm_compute; reflexivity|].
  apply (chat_turn_carries_background (fun _ => true) 7 0 uuidA chatHi
           (worldOf ∅ ∅ homeEnv) (worldOf ∅ ∅ homeEnv)).
  vm_compute. reflexivity.
Defined.

(** C4 as stated fails: the turn enqueued for the request of connection 7
    has a context that is not cancelled when connection 7 closes. *)
Lemma chat_turn_survives_disconnect :
  exists t w',
    chatRoute (fun _ => true) 7 0 uuidA chatHi (worldOf ∅ ∅ homeEnv)
    = (Streaming t, w')
    /\ ctxDone [7] (ctx (queued t)) = false.
Proof. do 2 eexists. split; [vm_compute; reflexivity | reflexivity]. Qed.

(** ** Queue protocol *)

(** [dequeue] on an empty queue returns no message and leaves the flag as
    it is; clearing it is a later step of the worker. *)
Lemma dequeue_empty_keeps_flag b :
  dequeue {| messages := []; processing := b |}
  = ({| messages := []; processing := b |}, None).
Proof. reflexivity. Qed.

Example turns_served_in_order :
  match run noJSON refused (start [turnS 1 "one"; turnS 2 "two"]) inOrder with
  | Some st =>
      queues st !! "S" = Some {| messages := []; processing := false |}
      /\ (wpc <$> workers st) = [WReturned]
      /\ (hpc <$> handlers st) = [HReturned; HReturned]
      /\ (received <$> handlers st)
         = [[errorEvent "Erro ao conectar com Python: connection refused"];
            [errorEvent "Erro ao conectar com Python: connection refused"]]
  | None => False
  end.
Proof. vm_compute. repeat split. Qed.

(** C1 on a concrete run: two chat handlers of session S interleave
    between [isProcessing] and [setProcessing]; both start a worker, and
    both workers are inside the proxy at the same time. *)
Theorem two_workers_for_one_session :
  forall (unmarshal : string -> option (gmap string JValue))
         (upstream : queuedMessage -> Upstream),
    match run unmarshal upstream (start [turnS 1 "one"; turnS 2 "two"])
            doubleStart with
    | Some st =>
        length (workers st) = 2
        /\ executing "S" st = 2
        /\ queues st !! "S" = Some {| messages := []; processing := true |}
    | None => False
    end.
Proof. intros unmarshal upstream. vm_compute. repeat split. Qed.

(** C3 on a concrete run: the worker of session S finds the queue empty;
    before it clears the flag a second turn is enqueued and its handler
    sees [processing = true]; the worker then clears the flag and returns.
    The turn stays in the queue, its channel stays open, no worker is left
    and no thread can take a step. *)
Theorem late_turn_is_stranded :
  match run noJSON refused (start [turnS 1 "one"; turnS 2 "two"])
          lateArrival with
  | Some st =>
      queues st !! "S"
      = Some {| messages := [queued (turnS 2 "two")]; processing := false |}
      /\ hasWorker "S" st = false
      /\ (hpc <$> handlers st) = [HReturned; HRange]
      /\ chans st !! 2 = Some {| buffer := []; closed := false |}
      /\ forall tid, step noJSON refused st tid = None
  | None => False
  end.
Proof.
  eassert (Hrun : run noJSON refused (start [turnS 1 "one"; turnS 2 "two"])
                    lateArrival = Some _) by (vm_compute; reflexivity).
  rewrite Hrun. clear Hrun.
  do 4 (split; [vm_compute; reflexivity|]).
  intros [i|j].
  - destruct i as [|[|i]]; vm_compute; reflexivity.
  - destruct j as [|j]; vm_compute; reflexivity.
Qed.

(** * Further properties of the code *)

(** ** Session cache *)

(** X1: an entry stored by [updateSessionCache] is served for exactly five
    minutes: a lookup [d] nanoseconds later hits, with the stored sessions,
    when [d] is at most the time to live, and misses afterwards. *)
Theorem cache_entry_fresh_for_ttl (w : World) (p : string)
    (ss : list SessionInfo) (d : Z) :
  getCachedSessions (advance (updateSessionCache w p ss) d) p
  = if (d <=? cacheTTL)%Z then Some ss else None.
Proof.
  unfold getCachedSessions, advance, updateSessionCache, set_cache. simpl.
  rewrite lookup_insert_eq. simpl.
  replace (now w + d - now w)%Z with d by lia.
  destruct (Z.ltb_spec cacheTTL d), (Z.leb_spec d cacheTTL);
    reflexivity || lia.
Qed.

(** X2: invalidating a project makes its next lookup miss, and neither an
    invalidation nor an update of one project changes what a lookup of
    another project answers. *)
Theorem cache_operations_are_per_project (w : World) (p q : string)
    (ss : list SessionInfo) :
  getCachedSessions (invalidateSessionCache w p) p = None
  /\ (p <> q ->
      getCachedSessions (invalidateSessionCache w p) q = getCachedSessions w q
      /\ getCachedSessions (updateSessionCache w p ss) q
         = getCachedSessions w q).
Proof.
  unfold getCachedSessions, invalidateSessionCache, updateSessionCache,
    set_cache. simpl. split.
  - rewrite lookup_delete_eq. reflexivity.
  - intros Hne. rewrite lookup_delete_ne, lookup_insert_ne by exact Hne.
    split; reflexivity.
Qed.

Lemma cache_operations_are_per_project_witness :
  getCachedSessions (invalidateSessionCache (worldOf ∅ cachedP homeEnv) "q") "p"
  = getCachedSessions (worldOf ∅ cachedP homeEnv) "p"
  /\ getCachedSessions (updateSessionCache (worldOf ∅ cachedP homeEnv) "q" [])
       "p"
     = getCachedSessions (worldOf ∅ cachedP homeEnv) "p".
Proof.
  apply (proj2 (cache_operations_are_per_project
                  (worldOf ∅ cachedP homeEnv) "q" "p" [])).
  discriminate.
Defined.

(** ** Validators, continued *)

(** X3: [validateFileOperation] accepts a path exactly when its extension
    is .jsonl or empty and the path is a regular file of at most 100 MiB,
    or it does not exist and the operation is create; a directory is never
    accepted. *)
Theorem validateFileOperation_accepts_iff (w : World)
    (filePath operation : string) :
  validateFileOperation w filePath operation = None <->
  (Ext filePath = ".jsonl" \/ Ext filePath = EmptyString)
  /\ match Os.Stat (fs w) filePath with
     | inl _ => operation = "create"
     | inr (File data) => (len data <= maxFileSize)%N
     | inr Directory => False
     end.
Proof.
  unfold validateFileOperation.
  destruct (Os.Stat (fs w) filePath) as [e|[data|]]; cbn [andb negb Os.IsDir].
  - destruct (String.eqb_spec operation "create") as [->|Hop]; cbn [negb].
    + destruct (String.eqb_spec (Ext filePath) ".jsonl") as [->|H1];
        cbn [negb andb]; [tauto|].
      destruct (String.eqb_spec (Ext filePath) EmptyString) as [->|H2];
        cbn [negb]; [tauto|].
      split; [discriminate | tauto].
    + split; [discriminate | tauto].
  - destruct (String.eqb_spec (Ext filePath) ".jsonl") as [->|H1];
      cbn [negb andb].
    + unfold Os.Size. destruct (N.ltb_spec maxFileSize (len data)).
      * split; [discriminate | lia].
      * tauto.
    + destruct (String.eqb_spec (Ext filePath) EmptyString) as [->|H2];
        cbn [negb].
      * unfold Os.Size. destruct (N.ltb_spec maxFileSize (len data)).
        -- split; [discriminate | lia].
        -- tauto.
      * split; [discriminate | tauto].
  - split; [discriminate | tauto].
Qed.

Lemma validateFileOperation_accepts_iff_witness :
  validateFileOperation (worldOf oneSession ∅ homeEnv) sessionPath "read"
  = None.
Proof.
  apply (proj2 (validateFileOperation_accepts_iff
                  (worldOf oneSession ∅ homeEnv) sessionPath "read")).
  split; [left; reflexivity | vm_compute; discriminate].
Defined.

Lemma firstDangerous_Forall msg ds :
  Forall (fun d => Contains msg d = false) ds -> firstDangerous msg ds = None.
Proof.
  induction 1 as [|d ds Hd _ IH]; simpl; [reflexivity|].
  rewrite Hd. exact IH.
Qed.

(** X4: [sanitizeMessage] accepts exactly the messages of at most 10000
    bytes that are not blank after trimming white space and contain no
    entry of [dangerous]; it never returns a message other than its
    input. *)
Theorem sanitizeMessage_accepts_iff (msg : string) :
  (sanitizeMessage msg = Ok msg <->
   (len msg <= 10000)%N /\ TrimSpace msg <> EmptyString
   /\ Forall (fun d => Contains msg d = false) dangerous)
  /\ (forall out, sanitizeMessage msg = Ok out -> out = msg).
Proof.
  unfold sanitizeMessage.
  destruct (N.ltb_spec 10000 (len msg)) as [Hlong|Hlen].
  { split; [split; [discriminate | lia] | discriminate]. }
  destruct (String.eqb_spec (TrimSpace msg) EmptyString) as [Hblank|Hne].
  { split; [split; [discriminate | tauto] | discriminate]. }
  destruct (firstDangerous msg dangerous) as [d|] eqn:Hd.
  - split; [split; [discriminate|] | discriminate].
    intros (_ & _ & Hall). rewrite (firstDangerous_Forall _ _ Hall) in Hd.
    discriminate.
  - split; [|congruence].
    split; [|reflexivity].
    intros _. auto using firstDangerous_None.
Qed.

Lemma sanitizeMessage_accepts_iff_witness :
  sanitizeMessage "two\nlines are fine" = Ok "two\nlines are fine".
Proof.
  apply (proj2 (proj1 (sanitizeMessage_accepts_iff "two\nlines are fine"))).
  split; [vm_compute; discriminate|].
  split; [vm_compute; discriminate | repeat constructor].
Defined.

Lemma hexRun_Some n s r :
  hexRun n s = Some r ->
  exists h, s = h +:+ r /\ String.length h = n
            /\ Forall (fun c => uuidByte c = true) (list_ascii_of_string h).
Proof.
  revert s. induction n as [|n IH]; intros s; simpl.
  - intros [= ->]. exists EmptyString. repeat split. constructor.
  - destruct s as [|c s]; [discriminate|].
    destruct (isHex c) eqn:Hc; [|discriminate].
    intros Hrun. destruct (IH _ Hrun) as (h & -> & Hlen & Hall).
    exists (String c h). simpl. repeat split; [congruence|].
    constructor; [unfold uuidByte; rewrite Hc; reflexivity | exact Hall].
Qed.

Lemma dash_Some s r : dash s = Some r -> s = String "-"%char r.
Proof.
  destruct s as [|c s]; simpl; [discriminate|].
  destruct (Ascii.eqb_spec c "-"%char) as [->|]; [|discriminate].
  congruence.
Qed.

Lemma length_append_string a b :
  String.length (a +:+ b) = String.length a + String.length b.
Proof. induction a as [|c a IH]; simpl; [reflexivity | rewrite IH; reflexivity]. Qed.

Lemma list_ascii_append a b :
  list_ascii_of_string (a +:+ b)
  = (list_ascii_of_string a ++ list_ascii_of_string b)%list.
Proof. induction a as [|c a IH]; simpl; [reflexivity | rewrite IH; reflexivity]. Qed.

(** X5: a string [isValidUUID] accepts has exactly 36 bytes, each a
    hexadecimal digit or a dash; in particular it contains no slash, no
    dot and no white space. *)
Theorem isValidUUID_shape (s : string) (Hval : isValidUUID s = true) :
  String.length s = 36
  /\ Forall (fun c => uuidByte c = true) (list_ascii_of_string s).
Proof.
  unfold isValidUUID in Hval. cbn [fold_left] in Hval.
  repeat match type of Hval with
         | context [?o ≫= ?f] =>
             lazymatch o with
             | context [_ ≫= _] => fail
             | _ => destruct o as [?r|] eqn:?H; cbn [mbind option_bind] in Hval
             end
         end; try discriminate.
  destruct (hexRun 12 _) as [[|]|] eqn:H9 in Hval; try discriminate.
  repeat match goal with
         | H : hexRun _ _ = Some _ |- _ =>
             apply hexRun_Some in H as (? & ? & ? & ?)
         | H : dash _ = Some _ |- _ => apply dash_Some in H
         end; subst.
  split.
  - repeat (rewrite length_append_string; cbn [String.length]). lia.
  - repeat (rewrite list_ascii_append || simpl list_ascii_of_string).
    repeat first [apply Forall_app; split | apply List.Forall_cons
                 | apply List.Forall_nil | assumption | reflexivity].
Qed.

Lemma isValidUUID_shape_witness :
  String.length uuidA = 36
  /\ Forall (fun c => uuidByte c = true) (list_ascii_of_string uuidA).
Proof. apply (isValidUUID_shape uuidA). reflexivity. Defined.

(** ** Queues *)

Lemma fold_enqueue msgs q :
  fold_left enqueue msgs q
  = {| messages := (messages q ++ msgs)%list; processing := processing q |}.
Proof.
  revert q. induction msgs as [|m msgs IH]; intros [l b]; simpl.
  - rewrite app_nil_r. reflexivity.
  - rewrite IH. simpl. rewrite <- app_assoc. reflexivity.
Qed.

Lemma dequeueN_all l b :
  dequeueN (length l) {| messages := l; processing := b |}
  = (l, {| messages := []; processing := b |}).
Proof.
  induction l as [|m l IH]; simpl; [reflexivity|].
  unfold dequeue. simpl. rewrite IH. reflexivity.
Qed.

(** X6: the queue is first-in first-out and never touches the flag: after
    any sequence of [enqueue] calls, as many [dequeue] calls as there are
    messages return the messages already queued followed by the new ones,
    in the order they were enqueued; the queue is then empty, its flag is
    what it was, and one more [dequeue] returns nothing. *)
Theorem queue_is_fifo (q : messageQueue) (msgs : list queuedMessage) :
  let q' := fold_left enqueue msgs q in
  let emptied := {| messages := []; processing := processing q |} in
  dequeueN (length (messages q) + length msgs) q'
  = ((messages q ++ msgs)%list, emptied)
  /\ dequeue emptied = (emptied, None).
Proof.
  cbv zeta. rewrite fold_enqueue, <- length_app. split.
  - apply dequeueN_all.
  - reflexivity.
Qed.

(** X7: [getOrCreateQueue] is idempotent, always leaves a queue for the
    session, returns the registry unchanged when the session already has a
    queue (its messages and flag are kept), and never touches the queue of
    another session. *)
Theorem getOrCreateQueue_keeps_queues (qs : gmap string messageQueue)
    (sid : string) :
  getOrCreateQueue (getOrCreateQueue qs sid) sid = getOrCreateQueue qs sid
  /\ is_Some (getOrCreateQueue qs sid !! sid)
  /\ (is_Some (qs !! sid) -> getOrCreateQueue qs sid = qs)
  /\ (forall other, other <> sid ->
        getOrCreateQueue qs sid !! other = qs !! other).
Proof.
  unfold getOrCreateQueue.
  destruct (qs !! sid) as [q|] eqn:Hq.
  - rewrite Hq. repeat split; eauto.
  - rewrite lookup_insert_eq. repeat split; eauto.
    + intros [q Hq']. discriminate.
    + intros other Hne. apply lookup_insert_ne. congruence.
Qed.

Lemma getOrCreateQueue_keeps_queues_witness :
  getOrCreateQueue {[ "S" := {| messages := []; processing := true |} ]} "S"
  = {[ "S" := {| messages := []; processing := true |} ]}.
Proof.
  apply (proj1 (proj2 (proj2 (getOrCreateQueue_keeps_queues _ "S")))).
  rewrite lookup_singleton_eq. eauto.
Defined.

(** ** Independence of sessions *)

(** X8: a step of a thread changes no queue but the one of its own
    session: whatever a chat handler or a worker of session [s] does, the
    messages and the flag of every other session stay as they are. *)
Theorem step_touches_own_queue_only
    (unmarshal : string -> option (gmap string JValue))
    (upstream : queuedMessage -> Upstream)
    (st st' : State) (tid : Tid) (s other : string)
    (Hstep : step unmarshal upstream st tid = Some st')
    (Hsess : tidSession st tid = Some s)
    (Hother : other <> s) :
  queues st' !! other = queues st !! other.
Proof.
  assert (Hgoc : forall qs, getOrCreateQueue qs s !! other = qs !! other).
  { intros qs. unfold getOrCreateQueue.
    destruct (qs !! s); [reflexivity|].
    apply lookup_insert_ne. congruence. }
  destruct tid as [i|j]; simpl in Hstep, Hsess.
  - unfold stepHandler in Hstep.
    destruct (handlers st !! i) as [t|]; [|discriminate].
    injection Hsess as Hs. cbn [mbind option_bind] in Hstep.
    rewrite Hs in Hstep.
    destruct (hpc t);
      repeat match type of Hstep with
             | context [?o ≫= _] =>
                 destruct o; cbn [mbind option_bind] in Hstep
             | context [match ?x with _ => _ end] => destruct x
             end;
      try discriminate; injection Hstep as <-; simpl;
      rewrite ?Hgoc, ?lookup_insert_ne by congruence; reflexivity.
  - unfold stepWorker in Hstep.
    destruct (workers st !! j) as [t|]; [|discriminate].
    injection Hsess as Hs. cbn [mbind option_bind] in Hstep.
    rewrite Hs in Hstep.
    destruct (wpc t);
      repeat match type of Hstep with
             | context [?o ≫= _] =>
                 destruct o; cbn [mbind option_bind] in Hstep
             | context [match ?x with _ => _ end] => destruct x
             end;
      try discriminate; injection Hstep as <-; simpl;
      rewrite ?Hgoc, ?lookup_insert_ne by congruence; reflexivity.
Qed.

Lemma step_touches_own_queue_only_witness :
  exists st',
    step noJSON refused busyT (H 0) = Some st'
    /\ queues st' !! "T" = queues busyT !! "T".
Proof.
  eassert (Hstep : step noJSON refused busyT (H 0) = Some _)
    by (vm_compute; reflexivity).
  eexists. split; [exact Hstep|].
  apply (step_touches_own_queue_only noJSON refused busyT _ (H 0) "S" "T"
           Hstep); [reflexivity | discriminate].
Defined.

(** ** A lone turn *)

Section OneTurn.

Variable unmarshal : string -> option (gmap string JValue).
Variable upstream : queuedMessage -> Upstream.
Variable t : Turn.

Local Abbreviation sid := (sessionID t).
Local Abbreviation ch := (response (queued t)).
Local Abbreviation stepT := (step unmarshal upstream).
Local Abbreviation runT := (run unmarshal upstream).

Lemma run_app st a b :
  runT st (a ++ b)
  = match runT st a with
    | Some st' => runT st' b
    | None => None
    end.
Proof.
  revert st. induction a as [|tid a IH]; intros st; simpl; [reflexivity|].
  destruct (stepT st tid); [apply IH | reflexivity].
Qed.

Lemma handler_gets_queue qs cs rc ws :
  stepT (handlerState t qs cs HGetQueue rc ws) (H 0)
  = Some (handlerState t (getOrCreateQueue qs sid) cs HEnqueue rc ws).
Proof. reflexivity. Qed.

Lemma handler_enqueues qs cs rc ws q :
  qs !! sid = Some q ->
  stepT (handlerState t qs cs HEnqueue rc ws) (H 0)
  = Some (handlerState t (<[sid := enqueue q (queued t)]> qs)
            (<[ch := {| buffer := []; closed := false |}]> cs)
            HIsProcessing rc ws).
Proof. intros Hq. unfold step, stepHandler. simpl. rewrite Hq. reflexivity. Qed.

Lemma handler_tests_flag qs cs rc ws q :
  qs !! sid = Some q ->
  stepT (handlerState t qs cs HIsProcessing rc ws) (H 0)
  = Some (handlerState t qs cs
            (if negb (processing q) then HSetProcessing else HRange) rc ws).
Proof. intros Hq. unfold step, stepHandler. simpl. rewrite Hq. reflexivity. Qed.

Lemma handler_sets_flag qs cs rc ws q :
  qs !! sid = Some q ->
  stepT (handlerState t qs cs HSetProcessing rc ws) (H 0)
  = Some (handlerState t (<[sid := setProcessing q true]> qs) cs HGo rc ws).
Proof. intros Hq. unfold step, stepHandler. simpl. rewrite Hq. reflexivity. Qed.

Lemma handler_starts_worker qs cs rc ws :
  stepT (handlerState t qs cs HGo rc ws) (H 0)
  = Some (handlerState t qs cs HRange rc (ws ++ [workerOf t WGetQueue])).
Proof. reflexivity. Qed.

Lemma handler_receives qs cs rc ws ev rest b :
  cs !! ch = Some {| buffer := ev :: rest; closed := b |} ->
  stepT (handlerState t qs cs HRange rc ws) (H 0)
  = Some (handlerState t qs (<[ch := {| buffer := rest; closed := b |}]> cs)
            HRange (rc ++ [ev]) ws).
Proof. intros Hc. unfold step, stepHandler. simpl. rewrite Hc. reflexivity. Qed.

Lemma handler_returns qs cs rc ws :
  cs !! ch = Some {| buffer := []; closed := true |} ->
  stepT (handlerState t qs cs HRange rc ws) (H 0)
  = Some (handlerState t qs cs HReturned rc ws).
Proof. intros Hc. unfold step, stepHandler. simpl. rewrite Hc. reflexivity. Qed.

Lemma worker_gets_queue qs cs hp rc :
  stepT (handlerState t qs cs hp rc [workerOf t WGetQueue]) (W 0)
  = Some (handlerState t (getOrCreateQueue qs sid) cs hp rc
            [workerOf t WDequeue]).
Proof. reflexivity. Qed.

Lemma worker_dequeues qs cs hp rc q :
  qs !! sid = Some q ->
  stepT (handlerState t qs cs hp rc [workerOf t WDequeue]) (W 0)
  = Some (handlerState t (<[sid := fst (dequeue q)]> qs) cs hp rc
            [workerOf t
               match snd (dequeue q) with
               | Some msg =>
                   WExecute msg (executeClaudeCLI unmarshal sid (upstream msg))
               | None => WSetProcessing
               end]).
Proof.
  intros Hq. unfold step, stepWorker. simpl. rewrite Hq. simpl.
  destruct (dequeue q) as [q' [msg|]]; reflexivity.
Qed.

Lemma worker_sends qs cs hp rc ev rest b :
  cs !! ch = Some {| buffer := b; closed := false |} ->
  length b < chanCap ->
  stepT (handlerState t qs cs hp rc
           [workerOf t (WExecute (queued t) (ev :: rest))]) (W 0)
  = Some (handlerState t qs
            (<[ch := {| buffer := b ++ [ev]; closed := false |}]> cs) hp rc
            [workerOf t (WExecute (queued t) rest)]).
Proof.
  intros Hc Hlen. unfold step, stepWorker. simpl. rewrite Hc. simpl.
  destruct (Nat.ltb_spec (length b) chanCap); [reflexivity | lia].
Qed.

Lemma worker_closes qs cs hp rc b :
  cs !! ch = Some {| buffer := b; closed := false |} ->
  stepT (handlerState t qs cs hp rc [workerOf t (WExecute (queued t) [])])
    (W 0)
  = Some (handlerState t qs (<[ch := {| buffer := b; closed := true |}]> cs)
            hp rc [workerOf t WDequeue]).
Proof. intros Hc. unfold step, stepWorker. simpl. rewrite Hc. reflexivity. Qed.

Lemma worker_clears_flag qs cs hp rc q :
  qs !! sid = Some q ->
  stepT (handlerState t qs cs hp rc [workerOf t WSetProcessing]) (W 0)
  = Some (handlerState t (<[sid := setProcessing q false]> qs) cs hp rc
            [workerOf t WReturned]).
Proof. intros Hq. unfold step, stepWorker. simpl. rewrite Hq. reflexivity. Qed.

(** Each event in turn is sent by the worker and received by the
    handler. *)
Lemma events_pass_one_by_one qs cs rc evs :
  cs !! ch = Some {| buffer := []; closed := false |} ->
  runT (handlerState t qs cs HRange rc
          [workerOf t (WExecute (queued t) evs)])
    (concat (replicate (length evs) [W 0; H 0]))
  = Some (handlerState t qs
            (<[ch := {| buffer := []; closed := false |}]> cs)
            HRange (rc ++ evs) [workerOf t (WExecute (queued t) [])]).
Proof.
  revert cs rc. induction evs as [|ev evs IH]; intros cs rc Hc.
  - simpl. rewrite app_nil_r, insert_id by exact Hc. reflexivity.
  - cbn [length replicate concat app run].
    rewrite (worker_sends _ _ _ _ _ _ [] Hc) by (unfold chanCap; simpl; lia).
    cbn [app].
    rewrite (handler_receives _ _ _ _ ev [] false)
      by apply lookup_insert_eq.
    rewrite insert_insert_eq, IH by apply lookup_insert_eq.
    rewrite insert_insert_eq, <- app_assoc. reflexivity.
Qed.

(** X9: a turn that is alone in its session is served to the end, whatever
    the upstream answers: under the schedule [serveOne] the handler
    enqueues it and starts one worker, receives exactly the events of
    [executeClaudeCLI], in order, and returns once the channel is closed;
    the worker leaves the queue empty, clears the flag and returns. *)
Theorem lone_turn_is_served :
  let evs := executeClaudeCLI unmarshal sid (upstream (queued t)) in
  runT (start [t]) (serveOne (length evs))
  = Some (handlerState t
            (<[sid := {| messages := []; processing := false |}]> ∅)
            (<[ch := {| buffer := []; closed := true |}]> ∅)
            HReturned evs [workerOf t WReturned]).
Proof.
  intros evs. unfold serveOne.
  change (start [t]) with (handlerState t ∅ ∅ HGetQueue [] []).
  rewrite run_app. cbn [run].
  rewrite handler_gets_queue.
  unfold getOrCreateQueue at 1. rewrite lookup_empty.
  rewrite (handler_enqueues _ _ _ _ _ (lookup_insert_eq _ _ _)).
  rewrite insert_insert_eq.
  rewrite (handler_tests_flag _ _ _ _ _ (lookup_insert_eq _ _ _)).
  cbn [enqueue processing messages negb app].
  rewrite (handler_sets_flag _ _ _ _ _ (lookup_insert_eq _ _ _)).
  rewrite insert_insert_eq, handler_starts_worker. cbn [app].
  rewrite worker_gets_queue.
  unfold getOrCreateQueue at 1. rewrite lookup_insert_eq.
  rewrite (worker_dequeues _ _ _ _ _ (lookup_insert_eq _ _ _)).
  rewrite insert_insert_eq.
  cbn [setProcessing enqueue dequeue messages processing fst snd app].
  fold evs.
  rewrite run_app, events_pass_one_by_one by apply lookup_insert_eq.
  rewrite insert_insert_eq. cbn [run app].
  rewrite (worker_closes _ _ _ _ _ (lookup_insert_eq _ _ _)).
  rewrite insert_insert_eq.
  rewrite (worker_dequeues _ _ _ _ _ (lookup_insert_eq _ _ _)).
  rewrite insert_insert_eq. cbn [dequeue messages processing fst snd].
  rewrite (worker_clears_flag _ _ _ _ _ (lookup_insert_eq _ _ _)).
  rewrite insert_insert_eq.
  rewrite (handler_returns _ _ _ _ (lookup_insert_eq _ _ _)).
  reflexivity.
Qed.

End OneTurn.

(** ** Upstream proxy, continued *)

Lemma splitOn_nonempty sep s : splitOn sep s <> [].
Proof.
  destruct s as [|c s]; simpl; [discriminate|].
  destruct (Ascii.eqb c sep); [discriminate|].
  destruct (splitOn sep s); discriminate.
Qed.

Lemma readLines_lf s :
  readLines (String lf s) = String lf EmptyString :: readLines s.
Proof.
  unfold readLines. simpl splitOn.
  destruct (splitOn lf s) as [|h tl] eqn:Hs.
  - exfalso. exact (splitOn_nonempty _ _ Hs).
  - reflexivity.
Qed.

Lemma readLines_other c s :
  Ascii.eqb c lf = false ->
  readLines (String c s)
  = match readLines s with
    | [] => []
    | l :: ls => String c l :: ls
    end.
Proof.
  intros Hc. unfold readLines. simpl splitOn. rewrite Hc.
  destruct (splitOn lf s) as [|h [|h2 tl]] eqn:Hs.
  - exfalso. exact (splitOn_nonempty _ _ Hs).
  - reflexivity.
  - reflexivity.
Qed.

Lemma readLines_length s : length (readLines s) = countLF s.
Proof.
  induction s as [|c s IH]; [reflexivity|].
  simpl countLF. destruct (Ascii.eqb c lf) eqn:Hc.
  - apply Ascii.eqb_eq in Hc. subst c. rewrite readLines_lf. simpl.
    rewrite IH. reflexivity.
  - rewrite readLines_other by exact Hc. rewrite <- IH.
    destruct (readLines s); reflexivity.
Qed.

Lemma append_empty s : EmptyString +:+ s = s.
Proof. reflexivity. Qed.

Lemma append_String c a s : String c a +:+ s = String c (a +:+ s).
Proof. reflexivity. Qed.

Lemma readLines_app a b :
  readLines (a +:+ String lf b)
  = (readLines (a +:+ String lf EmptyString) ++ readLines b)%list.
Proof.
  induction a as [|c a IH]; rewrite ?append_empty, ?append_String.
  - rewrite !readLines_lf. reflexivity.
  - destruct (Ascii.eqb c lf) eqn:Hc.
    + apply Ascii.eqb_eq in Hc. subst c. rewrite !readLines_lf, IH.
      reflexivity.
    + rewrite !readLines_other by exact Hc. rewrite IH.
      destruct (readLines (a +:+ String lf EmptyString)) as [|l ls] eqn:Hl;
        [|reflexivity].
      apply (f_equal (@length _)) in Hl. rewrite readLines_length in Hl.
      exfalso. clear -Hl.
      induction a as [|d a IHa];
        rewrite ?append_empty, ?append_String in Hl; cbn [countLF] in Hl.
      * rewrite Ascii.eqb_refl in Hl. discriminate.
      * destruct (Ascii.eqb d lf); [discriminate | auto].
Qed.

(** X10: the proxy works line by line and in arrival order: the events of
    a 200 response whose body is [a], a line feed, then [b] are the events
    of the body up to that line feed followed by the events of [b]; what
    was published for the lines received so far is never changed by what
    arrives later. *)
Theorem proxy_is_line_by_line
    (unmarshal : string -> option (gmap string JValue))
    (sid a b : string) :
  executeClaudeCLI unmarshal sid (Responded StatusOK (a +:+ String lf b))
  = (executeClaudeCLI unmarshal sid
       (Responded StatusOK (a +:+ String lf EmptyString))
     ++ executeClaudeCLI unmarshal sid (Responded StatusOK b))%list.
Proof.
  simpl. rewrite !readLoop_flat, readLines_app. simpl.
  apply flat_map_app.
Qed.

Lemma lineEvents_at_most_one unmarshal sid line :
  length (lineEvents unmarshal sid line) <= 1.
Proof.
  unfold lineEvents.
  destruct (String.eqb _ EmptyString); [simpl; lia|].
  destruct (HasPrefix _ _); [|simpl; lia].
  destruct (unmarshal _) as [data|]; [|simpl; lia].
  unfold frameEvents. cbv zeta.
  repeat match goal with
         | |- context [if ?b then _ else _] => destruct b
         | |- context [match ?o with Some _ => _ | None => _ end] =>
             destruct o
         end; simpl; lia.
Qed.

(** X11: a 200 response yields at most one event per line feed of its
    body; in particular a body without a line feed (an empty body, or a
    single line cut before its end) yields no event. *)
Theorem proxy_events_bounded_by_lines
    (unmarshal : string -> option (gmap string JValue))
    (sid body : string) :
  length (executeClaudeCLI unmarshal sid (Responded StatusOK body))
  <= countLF body.
Proof.
  simpl. rewrite readLoop_flat, <- readLines_length. simpl.
  induction (readLines body) as [|l ls IH]; simpl; [lia|].
  rewrite length_app.
  pose proof (lineEvents_at_most_one unmarshal sid l). lia.
Qed.

(** ** Clean paths *)

Lemma splitOn_no_sep sep e :
  mem_byte sep e = false -> splitOn sep e = [e].
Proof.
  induction e as [|c e IH]; simpl; [reflexivity|].
  rewrite Ascii.eqb_sym.
  destruct (Ascii.eqb c sep); simpl; [discriminate|].
  intros He. rewrite (IH He). reflexivity.
Qed.

Lemma ContainsAny_one e c :
  ContainsAny e (String c EmptyString) = mem_byte c e.
Proof.
  induction e as [|d e IH]; simpl; [reflexivity|].
  rewrite IH, orb_false_r, Ascii.eqb_sym. reflexivity.
Qed.

Lemma splitOn_app sep a b :
  splitOn sep (a +:+ String sep b) = (splitOn sep a ++ splitOn sep b)%list.
Proof.
  induction a as [|c a IH]; rewrite ?append_empty, ?append_String.
  - simpl. rewrite Ascii.eqb_refl. reflexivity.
  - simpl. destruct (Ascii.eqb c sep).
    + rewrite IH. reflexivity.
    + rewrite IH. destruct (splitOn sep a) as [|h tl] eqn:Ha.
      * exfalso. exact (splitOn_nonempty _ _ Ha).
      * reflexivity.
Qed.

Lemma split_app a b :
  split (a +:+ String slash b) = (split a ++ split b)%list.
Proof. apply splitOn_app. Qed.

Lemma realElem_split e : realElem e = true -> split e = [e].
Proof.
  unfold realElem, split. rewrite !andb_true_iff.
  intros (_ & He). apply negb_true_iff in He. apply splitOn_no_sep.
  rewrite <- ContainsAny_one. exact He.
Qed.

Lemma split_join l :
  Forall (fun e => realElem e = true) l -> l <> [] -> split (join l) = l.
Proof.
  induction 1 as [|e l He Hl IH]; [congruence|]. intros _.
  destruct l as [|e2 l]; [apply realElem_split, He|].
  change (join (e :: e2 :: l)) with (e +:+ String slash (join (e2 :: l))).
  rewrite split_app, IH by discriminate.
  rewrite (realElem_split e He). reflexivity.
Qed.

Lemma cleanElem_real rooted out e :
  realElem e = true -> cleanElem rooted out e = e :: out.
Proof.
  unfold realElem, cleanElem. rewrite !andb_true_iff, !negb_true_iff.
  intros (((-> & ->) & ->) & _). reflexivity.
Qed.

Lemma fold_cleanElem_real rooted es out :
  Forall (fun e => realElem e = true) es ->
  fold_left (cleanElem rooted) es out = (rev es ++ out)%list.
Proof.
  intros Hes. revert out. induction Hes as [|e es He _ IH]; intros out.
  - reflexivity.
  - simpl. rewrite (cleanElem_real _ _ _ He), IH, <- app_assoc. reflexivity.
Qed.

Lemma append_assoc a b c : (a +:+ b) +:+ c = a +:+ (b +:+ c).
Proof.
  induction a as [|x a IH]; rewrite ?append_empty, ?append_String;
    [reflexivity | rewrite IH; reflexivity].
Qed.

Lemma join_app_real l es :
  l <> [] -> es <> [] ->
  join (l ++ es) = join l +:+ String slash (join es).
Proof.
  intros Hl Hes. induction l as [|e l IH]; [congruence|].
  destruct l as [|e2 l].
  - simpl. destruct es; [congruence | reflexivity].
  - change (join ((e :: e2 :: l) ++ es))
      with (e +:+ String slash (join ((e2 :: l) ++ es))).
    rewrite IH by discriminate.
    change (join (e :: e2 :: l)) with (e +:+ String slash (join (e2 :: l))).
    rewrite !append_assoc, !append_String. reflexivity.
Qed.

Lemma HasPrefix_empty s : HasPrefix s EmptyString = true.
Proof. destruct s; reflexivity. Qed.

Lemma IsAbs_rooted s : IsAbs (String slash s) = true.
Proof. unfold IsAbs. simpl. apply HasPrefix_empty. Qed.

(** The elements [Clean] finds in a rooted path followed by more real
    elements. *)
Lemma cleanElems_rooted l es :
  Forall (fun e => realElem e = true) l ->
  Forall (fun e => realElem e = true) es ->
  cleanElems (join (pathOf true l :: es)) = (l ++ es)%list.
Proof.
  intros Hl Hes. unfold cleanElems.
  assert (Habs : IsAbs (join (pathOf true l :: es)) = true).
  { destruct es; apply IsAbs_rooted. }
  rewrite Habs.
  assert (Hsplit : exists pre,
             split (join (pathOf true l :: es)) = (pre ++ l ++ es)%list
             /\ Forall (fun e => e = EmptyString) pre).
  { destruct es as [|e es].
    - simpl join. unfold pathOf.
      destruct l as [|e l].
      + exists [EmptyString; EmptyString]. split; [reflexivity|].
        repeat constructor.
      + exists [EmptyString]. split; [|repeat constructor].
        change (String slash (join (e :: l)))
          with (EmptyString +:+ String slash (join (e :: l))).
        rewrite split_app.
        rewrite split_join by (assumption || discriminate).
        rewrite app_nil_r. reflexivity.
    - change (join (pathOf true l :: e :: es))
        with (pathOf true l +:+ String slash (join (e :: es))).
      rewrite split_app.
      rewrite (split_join (e :: es)) by (assumption || discriminate).
      unfold pathOf. destruct l as [|e0 l].
      + exists [EmptyString; EmptyString]. split; [reflexivity|].
        repeat constructor.
      + exists [EmptyString]. split; [|repeat constructor].
        change (String slash (join (e0 :: l)))
          with (EmptyString +:+ String slash (join (e0 :: l))).
        rewrite split_app.
        rewrite split_join by (assumption || discriminate).
        reflexivity. }
  destruct Hsplit as (pre & -> & Hpre).
  rewrite fold_left_app.
  assert (Hskip : fold_left (cleanElem true) pre [] = []).
  { clear -Hpre. induction Hpre as [|x pre -> _ IH]; [reflexivity|].
    simpl. exact IH. }
  rewrite Hskip, fold_cleanElem_real by (apply Forall_app; auto).
  rewrite app_nil_r. apply rev_involutive.
Qed.

Lemma join_pathOf_nonempty l es : join (pathOf true l :: es) <> EmptyString.
Proof. destruct es; discriminate. Qed.

(** [Join] of a clean rooted directory and real elements is the directory
    with the elements appended. *)
Lemma Join_rooted l es :
  Forall (fun e => realElem e = true) l ->
  Forall (fun e => realElem e = true) es ->
  Join (pathOf true l :: es) = pathOf true (l ++ es).
Proof.
  intros Hl Hes. cbn [Join].
  change (String.eqb (pathOf true l) EmptyString) with false. cbv iota.
  unfold Clean.
  destruct (String.eqb_spec (join (pathOf true l :: es)) EmptyString) as [H|_].
  { exfalso. exact (join_pathOf_nonempty _ _ H). }
  rewrite cleanElems_rooted by assumption.
  replace (IsAbs (join (pathOf true l :: es))) with true; [reflexivity|].
  symmetry. destruct es; apply IsAbs_rooted.
Qed.

Lemma Clean_rooted l :
  Forall (fun e => realElem e = true) l ->
  Clean (pathOf true l) = pathOf true l.
Proof.
  intros Hl. pose proof (Join_rooted l [] Hl (List.Forall_nil _)) as HJ.
  rewrite app_nil_r in HJ. exact HJ.
Qed.

Lemma append_empty_r s : s +:+ EmptyString = s.
Proof.
  induction s as [|c s IH]; rewrite ?append_empty, ?append_String;
    [reflexivity | rewrite IH; reflexivity].
Qed.

Lemma HasPrefix_app a b : HasPrefix (a +:+ b) a = true.
Proof.
  induction a as [|c a IH]; rewrite ?append_empty, ?append_String.
  - apply HasPrefix_empty.
  - simpl. rewrite Ascii.eqb_refl. exact IH.
Qed.

Lemma HasPrefix_dots_app a b :
  HasPrefix (a +:+ String slash b) ".." = HasPrefix a "..".
Proof.
  destruct a as [|c [|d a]]; rewrite ?append_empty, ?append_String;
    simpl; rewrite ?HasPrefix_empty; try reflexivity.
Qed.

Lemma Contains_dots_app a b :
  Contains (a +:+ String slash b) ".."
  = Contains a ".." || Contains b "..".
Proof.
  induction a as [|c a IH]; rewrite ?append_empty, ?append_String.
  - reflexivity.
  - cbn [Contains].
    rewrite <- append_String, HasPrefix_dots_app, IH, orb_assoc.
    reflexivity.
Qed.

Lemma Contains_dots_join els :
  Forall (fun e => Contains e ".." = false) els ->
  Contains (join els) ".." = false.
Proof.
  induction 1 as [|e els He Hels IH]; [reflexivity|].
  destruct els as [|e2 els]; [exact He|].
  change (join (e :: e2 :: els)) with (e +:+ String slash (join (e2 :: els))).
  rewrite Contains_dots_app, He, IH. reflexivity.
Qed.

Lemma Contains_dots_rooted els :
  Forall (fun e => Contains e ".." = false) els ->
  Contains (pathOf true els) ".." = false.
Proof.
  intros Hels. unfold pathOf.
  change (String slash (join els))
    with (EmptyString +:+ String slash (join els)).
  rewrite Contains_dots_app, (Contains_dots_join _ Hels). reflexivity.
Qed.

Lemma pathOf_app_prefix l es :
  HasPrefix (pathOf true (l ++ es)) (pathOf true l) = true.
Proof.
  unfold pathOf. destruct es as [|e es].
  - rewrite app_nil_r. rewrite <- (append_empty_r (String slash (join l))) at 1.
    apply HasPrefix_app.
  - destruct l as [|e0 l].
    + simpl. apply HasPrefix_empty.
    + rewrite join_app_real by discriminate.
      rewrite <- append_String. apply HasPrefix_app.
Qed.

Lemma Abs_rooted wd0 l :
  Forall (fun e => realElem e = true) l ->
  Abs wd0 (pathOf true l) = Ok (pathOf true l).
Proof.
  intros Hl. unfold Abs.
  change (IsAbs (pathOf true l)) with (IsAbs (String slash (join l))).
  rewrite IsAbs_rooted, Clean_rooted by exact Hl. reflexivity.
Qed.

Lemma validatePath_rooted w path l :
  Forall (fun e => realElem e = true) l ->
  Contains (pathOf true l) ".." = false ->
  validatePath w (pathOf true l) path
  = match Abs (wd w) path with
    | Err e => Some ("invalid base path: " +:+ e)
    | Ok absBase =>
        if negb (HasPrefix (pathOf true l) absBase)
        then Some "path outside base directory"
        else None
    end.
Proof.
  intros Hl Hdots. unfold validatePath.
  rewrite Clean_rooted, Hdots, Abs_rooted by exact Hl. reflexivity.
Qed.

(** ** Path validation, continued *)

Lemma validatePath_descendants w l es :
  Forall (fun e => realElem e = true) (l ++ es) ->
  Forall (fun e => Contains e ".." = false) (l ++ es) ->
  validatePath w (pathOf true (l ++ es)) (pathOf true l) = None.
Proof.
  intros Hreal Hdots.
  rewrite validatePath_rooted
    by (exact Hreal || apply Contains_dots_rooted, Hdots).
  apply Forall_app in Hreal as [Hl _].
  rewrite Abs_rooted, pathOf_app_prefix by exact Hl. reflexivity.
Qed.

(** X12: a root made of real elements, followed by more real elements,
    none with two consecutive dots, is always accepted under that root:
    the paths the handlers build below a clean absolute root pass the
    check. *)
Theorem validatePath_accepts_descendants (w : World) (l es : list string)
    (Hreal : Forall (fun e => realElem e = true) (l ++ es))
    (Hdots : Forall (fun e => Contains e ".." = false) (l ++ es)) :
  validatePath w (pathOf true (l ++ es)) (pathOf true l) = None.
Proof. apply validatePath_descendants; assumption. Qed.

Lemma validatePath_accepts_descendants_witness :
  validatePath (worldOf ∅ ∅ homeEnv)
    (pathOf true (["home"; "u"; ".claude"; "projects"] ++ ["p"; "s.jsonl"]))
    (pathOf true ["home"; "u"; ".claude"; "projects"]) = None.
Proof.
  apply (validatePath_accepts_descendants (worldOf ∅ ∅ homeEnv)
           ["home"; "u"; ".claude"; "projects"] ["p"; "s.jsonl"]);
    repeat constructor.
Defined.

Lemma join_last_suffix l x sfx :
  join (l ++ [x +:+ sfx]) = join (l ++ [x]) +:+ sfx.
Proof.
  induction l as [|e l IH]; [reflexivity|].
  destruct l as [|e2 l].
  - simpl. rewrite append_assoc, append_String. reflexivity.
  - change (join ((e :: e2 :: l) ++ [x +:+ sfx]))
      with (e +:+ String slash (join ((e2 :: l) ++ [x +:+ sfx]))).
    rewrite IH.
    change (join ((e :: e2 :: l) ++ [x]))
      with (e +:+ String slash (join ((e2 :: l) ++ [x]))).
    rewrite append_assoc, append_String. reflexivity.
Qed.

(** X13: the containment test is a test on text, not on path elements: a
    path that leaves the root through a sibling whose name merely starts
    with the name of the root's last element is accepted. *)
Theorem validatePath_accepts_sibling_with_same_prefix (w : World)
    (l es : list string) (x sfx : string)
    (Hreal : Forall (fun e => realElem e = true)
               ((l ++ [x]) ++ [x +:+ sfx] ++ es))
    (Hdots : Forall (fun e => Contains e ".." = false)
               (l ++ [x +:+ sfx] ++ es)) :
  validatePath w (pathOf true (l ++ [x +:+ sfx] ++ es))
    (pathOf true (l ++ [x])) = None.
Proof.
  apply Forall_app in Hreal as [Hroot Hrest].
  assert (Hpath : Forall (fun e => realElem e = true)
                    (l ++ [x +:+ sfx] ++ es)).
  { apply Forall_app in Hroot as [Hl _]. apply Forall_app. auto. }
  rewrite validatePath_rooted
    by (exact Hpath || apply Contains_dots_rooted, Hdots).
  rewrite Abs_rooted by exact Hroot.
  replace (HasPrefix (pathOf true (l ++ [x +:+ sfx] ++ es))
             (pathOf true (l ++ [x]))) with true; [reflexivity|].
  symmetry. rewrite app_assoc. unfold pathOf.
  destruct es as [|e es].
  - rewrite app_nil_r, join_last_suffix, <- append_String.
    apply HasPrefix_app.
  - rewrite join_app_real by (discriminate || now destruct l).
    rewrite join_last_suffix, append_assoc, <- append_String.
    apply HasPrefix_app.
Qed.

Lemma validatePath_accepts_sibling_with_same_prefix_witness :
  validatePath (worldOf ∅ ∅ homeEnv)
    (pathOf true (["home"; "u"; ".claude"] ++ ["projects" +:+ "-old"]
                  ++ ["p"; "s.jsonl"]))
    (pathOf true (["home"; "u"; ".claude"] ++ ["projects"])) = None.
Proof.
  apply (validatePath_accepts_sibling_with_same_prefix (worldOf ∅ ∅ homeEnv)
           ["home"; "u"; ".claude"] ["p"; "s.jsonl"] "projects" "-old");
    repeat constructor.
Defined.

(** ** Project deletion *)


Lemma under_refl p : under p p = true.
Proof. unfold under. rewrite String.eqb_refl. reflexivity. Qed.


Lemma accepted_name_is_real name out :
  sanitizeProjectName name = Ok out ->
  out = name /\ realElem name = true /\ Contains name ".." = false.
Proof.
  unfold sanitizeProjectName.
  destruct (ContainsAny name projectNameForbidden) eqn:Hany; [discriminate|].
  destruct (255 <? len name)%N; [discriminate|].
  destruct (String.eqb_spec (TrimSpace name) EmptyString) as [|Hne];
    [discriminate|].
  intros [= <-]. split; [reflexivity|].
  assert (Hdots : Contains name ".." = false).
  { destruct (Contains name "..") eqn:Hd; [|reflexivity].
    rewrite (Contains_dotdot_any name projectNameForbidden) in Hany;
      [discriminate | reflexivity | exact Hd]. }
  split; [|exact Hdots]. unfold realElem.
  assert (Hslash : ContainsAny name "/" = false).
  { destruct (ContainsAny name "/") eqn:Hs; [|reflexivity].
    rewrite (ContainsAny_mono name "/" projectNameForbidden) in Hany;
      [discriminate | | exact Hs].
    intros c. simpl. rewrite orb_false_r. intros ->. reflexivity. }
  rewrite Hslash.
  destruct (String.eqb_spec name EmptyString) as [->|_];
    [exfalso; apply Hne; reflexivity|].
  destruct (String.eqb_spec name ".") as [->|_]; [discriminate Hany|].
  destruct (String.eqb_spec name "..") as [->|_]; [discriminate Hany|].
  reflexivity.
Qed.



Lemma last_splitOn_trailing sep a :
  last (splitOn sep (a +:+ String sep EmptyString)) = Some EmptyString.
Proof.
  rewrite splitOn_app. simpl splitOn. apply last_snoc.
Qed.

(** X15: a project name that starts with -Users- and ends with a hyphen
    is never deleted: its simple name is empty, so the answer is 400 and
    the world is untouched, even when the name itself is acceptable. *)
Theorem deleteProject_rejects_trailing_hyphen (r : Request) (w : World)
    (a : string)
    (Hname : PathValue r "projectName" = "-Users-" +:+ a +:+ "-") :
  statusOf (fst (deleteProjectHandler r w)) = StatusBadRequest
  /\ snd (deleteProjectHandler r w) = w.
Proof.
  unfold deleteProjectHandler. rewrite Hname.
  destruct (sanitizeProjectName ("-Users-" +:+ a +:+ "-")) as [sanitized|e]
    eqn:Hs; [|split; reflexivity].
  apply accepted_name_is_real in Hs as (-> & _).
  rewrite HasPrefix_app.
  replace ("-Users-" +:+ a +:+ "-")
    with (("-Users-" +:+ a) +:+ String "-"%char EmptyString)
    by (rewrite append_assoc; reflexivity).
  rewrite last_splitOn_trailing. cbn [default].
  split; reflexivity.
Qed.

Lemma deleteProject_rejects_trailing_hyphen_witness :
  statusOf (fst (deleteProjectHandler
                   (requestOf "DELETE" ∅ {[ "projectName" := "-Users-2a-" ]}
                      (Err "EOF"))
                   (worldOf oneSession cachedP homeEnv)))
  = StatusBadRequest
  /\ snd (deleteProjectHandler
            (requestOf "DELETE" ∅ {[ "projectName" := "-Users-2a-" ]}
               (Err "EOF"))
            (worldOf oneSession cachedP homeEnv))
     = worldOf oneSession cachedP homeEnv.
Proof.
  apply (deleteProject_rejects_trailing_hyphen _ _ "2a"). reflexivity.
Defined.

(** ** Session deletion and history, continued *)

(** X16: deleting a session is all or nothing: either the answer is 200,
    the session file is gone, every other entry is as it was and the cache
    entry of the project is dropped, or the answer is not 200 and the
    world is untouched. *)
Theorem deleteSession_all_or_nothing (r : Request) (w : World) :
  let sessionFile :=
    Join [getClaudeProjectsDir w; PathValue r "projectName";
          PathValue r "sessionID" +:+ ".jsonl"] in
  let o := fst (deleteSessionHandler r w) in
  let w' := snd (deleteSessionHandler r w) in
  (statusOf o = StatusOK
   /\ fs w' = delete (Clean sessionFile) (fs w)
   /\ cache w' = delete (PathValue r "projectName") (cache w))
  \/ (statusOf o <> StatusOK /\ w' = w).
Proof.
  intros sessionFile o w'. subst o w'. unfold deleteSessionHandler.
  fold sessionFile.
  destruct (validatePath _ _ _); [right; split; [discriminate|reflexivity]|].
  destruct (validateFileOperation _ _ _);
    [right; split; [discriminate|reflexivity]|].
  assert (Hrm : forall e, Os.Remove (fs w) sessionFile = inl e ->
                          e = ENOENT \/ e = ENOTEMPTY).
  { unfold Os.Remove. intros e.
    destruct (fs w !! Clean sessionFile) as [[?|]|];
      [discriminate | | intros [= <-]; auto].
    destruct (Os.hasChildren _ _); [intros [= <-]; auto | discriminate]. }
  assert (Hok : forall f', Os.Remove (fs w) sessionFile = inr f' ->
                           f' = delete (Clean sessionFile) (fs w)).
  { unfold Os.Remove. intros f'.
    destruct (fs w !! Clean sessionFile) as [[?|]|];
      [intros [= <-]; reflexivity | | discriminate].
    destruct (Os.hasChildren _ _); [discriminate | intros [= <-]; reflexivity]. }
  destruct (Os.Stat (fs w) sessionFile) as [[]|n];
    try (right; split; [discriminate|reflexivity]);
    destruct (Os.Remove (fs w) sessionFile) as [e|f'] eqn:Hr;
    try (right; split; [discriminate|reflexivity]);
    left; rewrite (Hok f' eq_refl); repeat split.
Qed.

(** X17: clearing the history is idempotent: when it answers 200 the
    cache entry of the home project is dropped, and clearing again answers
    the same and changes nothing; the only other answer is 500, with the
    world untouched. *)
Theorem clearHistory_is_idempotent (r : Request) (w : World) :
  let o := fst (clearHistoryHandler r w) in
  let w' := snd (clearHistoryHandler r w) in
  (statusOf o = StatusOK
   /\ cache w' !! homeProject = None
   /\ clearHistoryHandler r w' = (o, w'))
  \/ (statusOf o = StatusInternalServerError /\ w' = w).
Proof.
  intros o w'. subst o w'. unfold clearHistoryHandler.
  change (getClaudeProjectsDir (invalidateSessionCache _ _))
    with (getClaudeProjectsDir w).
  set (f := Join [getClaudeProjectsDir w; homeProject;
                  "00000000-0000-0000-0000-000000000001.jsonl"]).
  assert (Hcache : forall w0 : World,
             invalidateSessionCache (invalidateSessionCache w0 homeProject)
               homeProject
             = invalidateSessionCache w0 homeProject).
  { intros w0. unfold invalidateSessionCache, set_cache. simpl.
    rewrite delete_delete_eq. reflexivity. }
  unfold Os.Remove.
  destruct (fs w !! Clean f) as [[d|]|] eqn:Hf.
  - left. cbn [fst snd statusOf jsonOK status].
    split; [reflexivity|]. split; [apply lookup_delete_eq|].
    cbn [fs invalidateSessionCache set_cache set_fs].
    change (getClaudeProjectsDir _) with (getClaudeProjectsDir w). fold f.
    rewrite lookup_delete_eq. cbn [IsNotExist negb].
    unfold invalidateSessionCache, set_cache, set_fs. simpl.
    rewrite delete_delete_eq. reflexivity.
  - destruct (Os.hasChildren (fs w) f) eqn:Hch.
    + right. split; reflexivity.
    + left. cbn [fst snd statusOf jsonOK status].
      split; [reflexivity|]. split; [apply lookup_delete_eq|].
      cbn [fs invalidateSessionCache set_cache set_fs].
      change (getClaudeProjectsDir _) with (getClaudeProjectsDir w). fold f.
      rewrite lookup_delete_eq. cbn [IsNotExist negb].
      unfold invalidateSessionCache, set_cache, set_fs. simpl.
      rewrite delete_delete_eq. reflexivity.
  - left. cbn [IsNotExist negb fst snd statusOf jsonOK status].
    split; [reflexivity|]. split; [apply lookup_delete_eq|].
    cbn [fs invalidateSessionCache set_cache].
    change (getClaudeProjectsDir _) with (getClaudeProjectsDir w). fold f.
    rewrite Hf. cbn [IsNotExist negb]. rewrite Hcache. reflexivity.
Qed.

(** ** Fork, continued *)

Lemma lookupNode_None f path :
  Os.lookupNode f path = None -> f !! Clean path = None.
Proof.
  unfold Os.lookupNode. destruct (_ || _); [discriminate | tauto].
Qed.

(** What a fork request that is answered 200 did. *)
Lemma forkSessionHandler_200 r w :
  statusOf (fst (forkSessionHandler r w)) = StatusOK ->
  exists req data f1,
    jsonBody r = Ok req
    /\ Os.Stat (fs w) (forkTargetPath w req) = inl ENOENT
    /\ Os.ReadFile (fs w) (forkSourcePath w req) = inr data
    /\ Os.MkdirAll (fs w) (forkProjectDir w req) = inr f1
    /\ snd (forkSessionHandler r w)
       = invalidateSessionCache
           (set_fs w (<[Clean (forkTargetPath w req) := File data]> f1))
           (field req "project_name").
Proof.
  unfold forkSessionHandler.
  destruct (jsonBody r) as [req|e]; [|discriminate].
  cbv zeta.
  destruct (negb _ || negb _); [discriminate|].
  destruct (String.eqb (field req "project_name") EmptyString);
    [discriminate|].
  change (Join [getClaudeProjectsDir w; field req "project_name"])
    with (forkProjectDir w req).
  change (Join [forkProjectDir w req; field req "source_session" +:+ ".jsonl"])
    with (forkSourcePath w req).
  change (Join [forkProjectDir w req; field req "fork_session" +:+ ".jsonl"])
    with (forkTargetPath w req).
  destruct (validateFileOperation w (forkSourcePath w req) "read");
    [discriminate|].
  destruct (Os.Stat (fs w) (forkTargetPath w req)) as [en|] eqn:Hst;
    [|discriminate].
  assert (en = ENOENT) as ->.
  { unfold Os.Stat in Hst. destruct (Os.lookupNode _ _); congruence. }
  destruct (Os.ReadFile (fs w) (forkSourcePath w req)) as [|data] eqn:Hrd;
    [discriminate|].
  destruct (Os.MkdirAll (fs w) (forkProjectDir w req)) as [|f1] eqn:Hmk;
    [discriminate|].
  destruct (Os.WriteFile f1 (forkTargetPath w req) data) as [|f2] eqn:Hwr;
    [discriminate|].
  intros _. apply WriteFile_inr in Hwr as [-> _].
  exists req, data, f1. repeat split; assumption.
Qed.

(** X18: a fork never removes or changes an entry that exists, whatever it
    answers; it leaves the cache alone unless it answers 200; and a request
    whose source and fork ids are the same is never answered 200. *)
Theorem fork_never_overwrites (r : Request) (w : World) :
  let o := fst (forkSessionHandler r w) in
  let w' := snd (forkSessionHandler r w) in
  (forall k n, fs w !! k = Some n -> fs w' !! k = Some n)
  /\ (statusOf o <> StatusOK -> cache w' = cache w)
  /\ (forall req, jsonBody r = Ok req ->
        field req "source_session" = field req "fork_session" ->
        statusOf o <> StatusOK).
Proof.
  intros o w'. subst o w'.
  destruct (Z.eq_dec (statusOf (fst (forkSessionHandler r w))) StatusOK)
    as [H200|Hne].
  - destruct (forkSessionHandler_200 r w H200)
      as (req & data & f1 & Hbody & Hst & Hrd & Hmk & ->).
    split; [|split].
    + intros k n Hk. cbn [fs invalidateSessionCache set_cache set_fs].
      unfold Os.Stat in Hst.
      destruct (Os.lookupNode (fs w) (forkTargetPath w req)) eqn:Hl;
        [discriminate|].
      apply lookupNode_None in Hl.
      rewrite lookup_insert_ne by congruence.
      eapply MkdirAll_keeps; eauto.
    + tauto.
    + intros req' Hbody' Hsame. rewrite Hbody in Hbody'.
      injection Hbody' as <-. exfalso.
      unfold forkSourcePath, forkTargetPath in *. rewrite Hsame in Hrd.
      unfold Os.Stat, Os.ReadFile in *.
      destruct (Os.lookupNode _ _) as [[?|]|]; discriminate.
  - split; [|split; [|tauto]].
    + revert Hne. unfold forkSessionHandler.
      repeat match goal with
             | |- context [match ?x with _ => _ end] =>
                 lazymatch x with
                 | context [match _ with _ => _ end] => fail
                 | _ => destruct x eqn:?
                 end
             end; cbn [fst snd statusOf httpError jsonOK status fs set_fs];
        try tauto; intros _ k n Hk;
        try assumption; eapply MkdirAll_keeps; eauto.
    + intros _. revert Hne. unfold forkSessionHandler.
      repeat match goal with
             | |- context [match ?x with _ => _ end] =>
                 lazymatch x with
                 | context [match _ with _ => _ end] => fail
                 | _ => destruct x eqn:?
                 end
             end; cbn [fst snd statusOf httpError jsonOK status];
        try tauto; reflexivity.
Qed.

Lemma fork_never_overwrites_witness :
  let r := requestOf "POST" ∅ ∅
             (Ok {[ "source_session" := uuidA; "fork_session" := uuidA;
                    "project_name" := "p" ]}) in
  let w := worldOf sessionA ∅ homeEnv in
  statusOf (fst (forkSessionHandler r w)) <> StatusOK
  /\ fs (snd (forkSessionHandler r w))
       !! "/home/u/.claude/projects/p/67e137a4-20c0-4d20-a5c6-286372bce5cf.jsonl"
     = Some (File "line 1").
Proof.
  intros r w.
  destruct (fork_never_overwrites r w) as (Hkeep & _ & Hsame).
  split.
  - apply (Hsame _ eq_refl). reflexivity.
  - apply Hkeep. reflexivity.
Defined.

(** ** Accepting a chat turn *)

Lemma sanitizeMessage_Ok msg out : sanitizeMessage msg = Ok out -> out = msg.
Proof.
  unfold sanitizeMessage.
  destruct (10000 <? len msg)%N; [discriminate|].
  destruct (String.eqb _ _); [discriminate|].
  destruct (firstDangerous _ _); [discriminate | congruence].
Qed.

Lemma nonEmpty_Some o s :
  nonEmpty o = Some s <-> o = Some s /\ s <> EmptyString.
Proof.
  unfold nonEmpty. destruct o as [x|]; [|split; [discriminate | tauto]].
  destruct (String.eqb_spec x EmptyString) as [->|Hne]; split.
  - discriminate.
  - intros [[= <-] H]. tauto.
  - intros [= <-]. auto.
  - intros [[= <-] _]. reflexivity.
Qed.

(** X19: the chat handler hands a turn to the queue only for a request
    whose body decodes and whose message [sanitizeMessage] accepts; the
    turn then carries that message unchanged, the session and project
    fields of the request, the channel of the handler, and the session id
    of the request whenever the request has a non-empty one; on the way
    the handler removes or changes no existing entry of the filesystem and
    leaves the cache alone. *)
Theorem chat_turn_keeps_request (conn ch : nat) (fresh : string)
    (r : Request) (w w' : World) (t : Turn)
    (Hrun : chatHandler conn ch fresh r w = (Streaming t, w')) :
  exists o,
    jsonBody r = Ok o
    /\ sanitizeMessage (field o "message") = Ok (field o "message")
    /\ message (queued t)
       = {| Message := field o "message"; SessionID := o !! "session_id";
            ProjectName := o !! "project_name" |}
    /\ response (queued t) = ch
    /\ (forall s, o !! "session_id" = Some s -> s <> EmptyString ->
          sessionID t = s)
    /\ (forall k n, fs w !! k = Some n -> fs w' !! k = Some n)
    /\ cache w' = cache w.
Proof.
  unfold chatHandler in Hrun.
  destruct (jsonBody r) as [o|]; [|discriminate]. exists o.
  unfold decodeChat in Hrun. cbn [Message SessionID ProjectName] in Hrun.
  destruct (sanitizeMessage (field o "message")) as [sanitized|] eqn:Hmsg;
    [|discriminate].
  apply sanitizeMessage_Ok in Hmsg as Hs. subst sanitized.
  split; [reflexivity|]. split; [reflexivity|].
  cbv zeta in Hrun. cbn [Message SessionID ProjectName] in Hrun.
  destruct (nonEmpty (o !! "session_id")) as [sid|] eqn:Hsid.
  - apply nonEmpty_Some in Hsid as [Hsid Hne].
    assert (Hid : forall s, o !! "session_id" = Some s -> sid = s)
      by congruence.
    destruct (nonEmpty (o !! "project_name")) as [pname|].
    + destruct (Os.Stat (fs w) _).
      * destruct (Os.MkdirAll (fs w) _) as [[p0 e0]|f1] eqn:Hmk;
          [discriminate|].
        injection Hrun as <- <-. cbn.
        repeat split; auto.
        intros k n Hk. eapply MkdirAll_keeps; eauto.
      * injection Hrun as <- <-. cbn. repeat split; auto.
    + destruct (findProject _ _ _ _);
        injection Hrun as <- <-; cbn; repeat split; auto.
  - assert (Hnone : forall s, o !! "session_id" = Some s ->
                              s <> EmptyString -> False).
    { intros s Hs Hne.
      assert (nonEmpty (o !! "session_id") = Some s)
        by (apply nonEmpty_Some; auto).
      congruence. }
    destruct (firstSession _) as [found|];
      injection Hrun as <- <-; cbn; repeat split; auto;
      intros s0 Hs0 Hne0; destruct (Hnone s0 Hs0 Hne0).
Qed.

Lemma chat_turn_keeps_request_witness :
  exists o,
    jsonBody chatHi = Ok o
    /\ sanitizeMessage (field o "message") = Ok (field o "message")
    /\ message (queued
         {| sessionID := uuidA; projectDir := "/home/u/.claude";
            sessionExists := false;
            queued := {| message := {| Message := "hi"; SessionID := None;
                                       ProjectName := None |};
                         response := 0; ctx := Background |} |})
       = {| Message := field o "message"; SessionID := o !! "session_id";
            ProjectName := o !! "project_name" |}.
Proof.
  destruct (chat_turn_keeps_request 7 0 uuidA chatHi (worldOf ∅ ∅ homeEnv)
              (worldOf ∅ ∅ homeEnv)
              {| sessionID := uuidA; projectDir := "/home/u/.claude";
                 sessionExists := false;
                 queued := {| message := {| Message := "hi";
                                            SessionID := None;
                                            ProjectName := None |};
                              response := 0; ctx := Background |} |})
    as (o & Hb & Hm & Hq & _).
  - vm_compute. reflexivity.
  - exists o. auto.
Defined.

(** ** Listing sessions and projects *)

(** X20: the session list may be stale for five minutes: after a call
    that missed the cache and read the directory, every call for the same
    project within the time to live answers the same sessions from the
    cache and changes nothing, whatever has happened to the filesystem
    meanwhile. *)
Theorem listSessions_serves_cache_for_ttl (r : Request) (w w1 : World)
    (ss : list SessionInfo) (f' : gmap string Node) (d : Z)
    (Hmiss : getCachedSessions w (PathValue r "projectName") = None)
    (Hlist : listSessionsHandler r w = (Sessions ss, w1))
    (Hfresh : (d <= cacheTTL)%Z) :
  listSessionsHandler r (advance (set_fs w1 f') d)
  = (Sessions ss, advance (set_fs w1 f') d).
Proof.
  unfold listSessionsHandler in Hlist. rewrite Hmiss in Hlist.
  cbv zeta in Hlist.
  destruct (Listing.ReadDir _ _) as [e|entries]; [discriminate|].
  injection Hlist as <- <-.
  unfold listSessionsHandler, getCachedSessions, advance, set_fs,
    updateSessionCache, set_cache. cbn.
  rewrite lookup_insert_eq. cbn.
  replace (now w + d - now w)%Z with d by lia.
  destruct (Z.ltb_spec cacheTTL d); [lia | reflexivity].
Qed.

Lemma listSessions_serves_cache_for_ttl_witness :
  listSessionsHandler
    (requestOf "GET" ∅ {[ "projectName" := "p" ]} (Err "EOF"))
    (advance
       (set_fs
          (snd (listSessionsHandler
                  (requestOf "GET" ∅ {[ "projectName" := "p" ]} (Err "EOF"))
                  (worldOf oneSession ∅ homeEnv)))
          ∅) 1000)
  = (Sessions [{| ID := "s"; Path := "p/s" |}],
     advance
       (set_fs
          (snd (listSessionsHandler
                  (requestOf "GET" ∅ {[ "projectName" := "p" ]} (Err "EOF"))
                  (worldOf oneSession ∅ homeEnv)))
          ∅) 1000).
Proof.
  apply (listSessions_serves_cache_for_ttl _ (worldOf oneSession ∅ homeEnv)).
  - reflexivity.
  - vm_compute. reflexivity.
  - vm_compute. discriminate.
Defined.

(** X21: a list that follows a successful delete of a session of the
    same project does not answer from the cache: it reads the directory
    again and caches what it found. *)
Theorem listSessions_rescans_after_delete (r rl : Request) (w : World)
    (Hsame : PathValue rl "projectName" = PathValue r "projectName")
    (Hdel : statusOf (fst (deleteSessionHandler r w)) = StatusOK) :
  let w' := snd (deleteSessionHandler r w) in
  let p := PathValue r "projectName" in
  listSessionsHandler rl w'
  = match Listing.ReadDir (fs w') (Join [getClaudeProjectsDir w'; p]) with
    | inl e => (ListFailed e, w')
    | inr entries =>
        (Sessions (sessionsOf p entries),
         updateSessionCache w' p (sessionsOf p entries))
    end.
Proof.
  intros w' p.
  destruct (deleteSession_success_invalidates r w _ w'
              (surjective_pairing _) Hdel) as [_ Hcache].
  subst p. unfold listSessionsHandler, getCachedSessions.
  rewrite Hsame, Hcache. reflexivity.
Qed.

Lemma listSessions_rescans_after_delete_witness :
  fst (listSessionsHandler
         (requestOf "GET" ∅ {[ "projectName" := "p" ]} (Err "EOF"))
         (snd (deleteSessionHandler (deleteS ∅)
                 (worldOf oneSession cachedP homeEnv))))
  = Sessions [].
Proof.
  rewrite (listSessions_rescans_after_delete (deleteS ∅)
             (requestOf "GET" ∅ {[ "projectName" := "p" ]} (Err "EOF"))
             (worldOf oneSession cachedP homeEnv));
    [vm_compute; reflexivity | reflexivity | reflexivity].
Defined.

Lemma sessionsOf_length p entries :
  length (sessionsOf p entries) = countSessions entries.
Proof.
  induction entries as [|e entries IH]; simpl; [reflexivity|].
  destruct (negb _ && _); simpl; rewrite IH; reflexivity.
Qed.

Lemma projectsOf_In f projectsPath entries info :
  In info (projectsOf f projectsPath entries) ->
  exists dirEntries,
    Listing.ReadDir f (Join [projectsPath; projName info]) = inr dirEntries
    /\ sessionCount info = countSessions dirEntries
    /\ projPath info = projName info.
Proof.
  induction entries as [|e entries IH]; cbn [projectsOf In]; [tauto|].
  destruct (Os.IsDir (snd e)); [|exact IH].
  destruct (Listing.ReadDir f (Join [projectsPath; fst e])) as [|des] eqn:Hrd;
    [exact IH|].
  cbn [In]. intros [<-|Hin]; [|auto].
  exists des. cbn [projName projPath sessionCount]. auto.
Qed.

(** X22: the two listings agree: for every project the project list
    shows, its session count is the number of sessions the session list
    returns for that project when the cache has nothing fresh for it. *)
Theorem project_count_matches_session_list (r : Request) (w : World)
    (projects : list ProjectInfo) (info : ProjectInfo)
    (Hlist : listProjectsHandler w = inr projects)
    (Hin : In info projects)
    (Hname : PathValue r "projectName" = projName info)
    (Hmiss : getCachedSessions w (projName info) = None) :
  exists ss,
    fst (listSessionsHandler r w) = Sessions ss
    /\ length ss = sessionCount info.
Proof.
  unfold listProjectsHandler in Hlist. cbv zeta in Hlist.
  destruct (Listing.ReadDir (fs w) (getClaudeProjectsDir w)) as [|entries];
    [discriminate|].
  injection Hlist as <-.
  apply projectsOf_In in Hin as (des & Hrd & Hcount & _).
  unfold listSessionsHandler. rewrite Hname, Hmiss. cbv zeta.
  rewrite Hrd. eexists. split; [reflexivity|].
  rewrite sessionsOf_length. symmetry. exact Hcount.
Qed.

Lemma project_count_matches_session_list_witness :
  exists ss,
    fst (listSessionsHandler
           (requestOf "GET" ∅ {[ "projectName" := "p" ]} (Err "EOF"))
           (worldOf oneSession ∅ homeEnv)) = Sessions ss
    /\ length ss = 1.
Proof.
  apply (project_count_matches_session_list
           (requestOf "GET" ∅ {[ "projectName" := "p" ]} (Err "EOF"))
           (worldOf oneSession ∅ homeEnv)
           [{| projName := "p"; projPath := "p"; sessionCount := 1 |}]
           {| projName := "p"; projPath := "p"; sessionCount := 1 |}).
  - vm_compute. reflexivity.
  - left. reflexivity.
  - reflexivity.
  - reflexivity.
Defined.

(** ** The newest session and its tail *)

Lemma mostRecent_spec claudeDir modTime entries sf0 t0 :
  let res := mostRecent claudeDir modTime entries sf0 t0 in
  (t0 <= snd res)%Z
  /\ (forall e t, In e entries -> isSessionEntry e = true ->
        modTime (fst e) = Some t -> (t <= snd res)%Z)
  /\ (res = (sf0, t0)
      \/ exists e, In e entries /\ isSessionEntry e = true
                   /\ modTime (fst e) = Some (snd res)
                   /\ (t0 < snd res)%Z
                   /\ fst res = Join [claudeDir; fst e]).
Proof.
  revert sf0 t0. induction entries as [|e entries IH]; intros sf0 t0.
  - cbn. split; [lia|]. split; [tauto | auto].
  - cbn [mostRecent]. fold (isSessionEntry e).
    destruct (isSessionEntry e) eqn:He.
    + destruct (modTime (fst e)) as [t|] eqn:Ht.
      * destruct (Z.ltb_spec t0 t) as [Hlt|Hge].
        -- destruct (IH (Join [claudeDir; fst e]) t) as (H1 & H2 & H3).
           split; [lia|]. split.
           ++ intros e' t' [<-|Hin] He' Ht'; [|eauto].
              rewrite Ht in Ht'. injection Ht' as <-. exact H1.
           ++ right. destruct H3 as [Heq|(e' & Hin & He' & Ht' & Hlt' & Hf)].
              ** exists e. rewrite Heq. cbn. repeat split; auto.
              ** exists e'. repeat split; auto. cbn. auto. lia.
        -- destruct (IH sf0 t0) as (H1 & H2 & H3).
           split; [exact H1|]. split.
           ++ intros e' t' [<-|Hin] He' Ht'; [|eauto].
              rewrite Ht in Ht'. injection Ht' as <-. lia.
           ++ destruct H3 as [Heq|(e' & Hin & He' & Ht' & Hlt' & Hf)];
                [left; exact Heq|].
              right. exists e'. repeat split; auto. cbn. auto.
      * destruct (IH sf0 t0) as (H1 & H2 & H3).
        split; [exact H1|]. split.
        -- intros e' t' [<-|Hin] He' Ht'; [congruence | eauto].
        -- destruct H3 as [Heq|(e' & Hin & He' & Ht' & Hlt' & Hf)];
             [left; exact Heq|].
           right. exists e'. repeat split; auto. cbn. auto.
    + destruct (IH sf0 t0) as (H1 & H2 & H3).
      split; [exact H1|]. split.
      * intros e' t' [<-|Hin] He' Ht'; [congruence | eauto].
      * destruct H3 as [Heq|(e' & Hin & He' & Ht' & Hlt' & Hf)];
          [left; exact Heq|].
        right. exists e'. repeat split; auto. cbn. auto.
Qed.

(** X23: the loop of the live-session endpoint picks a newest session
    file: no session file of the listing has a later modification time
    than the one kept, and either nothing is picked (then no session file
    has a modification time after the epoch) or the file picked is a
    session file of the listing with exactly that time. *)
Theorem mostRecent_picks_newest (claudeDir : string)
    (modTime : string -> option Z) (entries : list (string * Node)) :
  let res := mostRecent claudeDir modTime entries EmptyString 0 in
  (forall e t, In e entries -> isSessionEntry e = true ->
     modTime (fst e) = Some t -> (t <= snd res)%Z)
  /\ ((res = (EmptyString, 0%Z)
       /\ forall e t, In e entries -> isSessionEntry e = true ->
            modTime (fst e) = Some t -> (t <= 0)%Z)
      \/ exists e, In e entries /\ isSessionEntry e = true
                   /\ modTime (fst e) = Some (snd res)
                   /\ (0 < snd res)%Z
                   /\ fst res = Join [claudeDir; fst e]).
Proof.
  intros res.
  destruct (mostRecent_spec claudeDir modTime entries EmptyString 0)
    as (_ & Hmax & Hpick).
  fold res in Hmax, Hpick. split; [exact Hmax|].
  destruct Hpick as [Heq|Hex]; [left | right; exact Hex].
  split; [exact Heq|].
  intros e t Hin He Ht. specialize (Hmax e t Hin He Ht).
  rewrite Heq in Hmax. exact Hmax.
Qed.

Lemma mostRecent_picks_newest_witness :
  let mt (name : string) :=
    if String.eqb name "a.jsonl" then Some 5%Z
    else if String.eqb name "b.jsonl" then Some 9%Z else None in
  (5 <= snd (mostRecent "/d" mt
               [("a.jsonl", File "x"); ("b.jsonl", File "y")]
               EmptyString 0))%Z.
Proof.
  intros mt.
  apply (proj1 (mostRecent_picks_newest "/d" mt
                  [("a.jsonl", File "x"); ("b.jsonl", File "y")])
           ("a.jsonl", File "x") 5%Z).
  - left. reflexivity.
  - reflexivity.
  - reflexivity.
Defined.




(** ** Reading a session *)

Lemma splitOn_jsonl ls :
  Forall plainLine ls ->
  splitOn lf (jsonl ls) = (ls ++ [EmptyString])%list.
Proof.
  induction 1 as [|l ls (_ & Hlf & _) _ IH]; [reflexivity|].
  cbn [jsonl fold_right]. fold (jsonl ls).
  rewrite splitOn_app, IH, splitOn_no_sep by exact Hlf. reflexivity.
Qed.

Lemma scanTokens_plain ls :
  Forall plainLine ls -> scanTokens ls = (ls, false).
Proof.
  induction 1 as [|l ls (Hlen & _ & Hcr) _ IH]; [reflexivity|].
  cbn [scanTokens]. rewrite IH.
  destruct (N.leb_spec maxScanTokenSize (len l)); [lia|].
  unfold dropCR, TrimSuffix. rewrite Hcr. reflexivity.
Qed.

Lemma scanLines_jsonl ls :
  Forall plainLine ls -> scanLines (jsonl ls) = (ls, false).
Proof.
  intros Hls. unfold scanLines, rawLines. cbv zeta.
  rewrite (splitOn_jsonl _ Hls), last_snoc, removelast_last.
  apply scanTokens_plain, Hls.
Qed.

(** X25: a session file written as lines, each followed by a line feed,
    reads back as exactly those lines, with their count and the path of
    the file, provided the path and the file pass the two validations and
    every line is shorter than 64 KiB, has no line feed and does not end
    with a carriage return. *)
Theorem readSession_returns_written_lines (r : Request) (w : World)
    (ls : list string) :
  let sessionFile :=
    Join [getClaudeProjectsDir w; PathValue r "projectName";
          PathValue r "sessionID" +:+ ".jsonl"] in
  validatePath w sessionFile (getClaudeProjectsDir w) = None ->
  validateFileOperation w sessionFile "read" = None ->
  Os.Stat (fs w) sessionFile = inr (File (jsonl ls)) ->
  Forall plainLine ls ->
  readSessionHandler r w = SessionLines ls sessionFile (length ls).
Proof.
  intros sessionFile Hpath Hfile Hstat Hls.
  unfold readSessionHandler. fold sessionFile.
  rewrite Hpath, Hfile, Hstat, (scanLines_jsonl _ Hls). reflexivity.
Qed.

Lemma readSession_returns_written_lines_witness :
  readSessionHandler
    (requestOf "GET" ∅ {[ "projectName" := "p"; "sessionID" := "s" ]}
       (Err "EOF"))
    (worldOf (<[sessionPath := File (jsonl ["{}"; "{}"])]> oneSession) ∅
       homeEnv)
  = SessionLines ["{}"; "{}"] sessionPath 2.
Proof.
  rewrite (readSession_returns_written_lines
             (requestOf "GET" ∅
                {[ "projectName" := "p"; "sessionID" := "s" ]} (Err "EOF"))
             (worldOf (<[sessionPath := File (jsonl ["{}"; "{}"])]> oneSession)
                ∅ homeEnv) ["{}"; "{}"]).
  - vm_compute. reflexivity.
  - reflexivity.
  - vm_compute. reflexivity.
  - vm_compute. reflexivity.
  - repeat constructor.
Defined.



(** ** Session ids and file names *)

Lemma extScan_suffix path e :
  extScan path = Some e -> exists pre, path = pre +:+ e.
Proof.
  revert e. induction path as [|c r IH]; intros e; cbn [extScan];
    [discriminate|].
  destruct (extScan r) as [e'|].
  - intros [= <-]. destruct (IH e' eq_refl) as [pre ->].
    exists (String c pre). reflexivity.
  - destruct (Ascii.eqb c dot).
    + intros [= <-]. exists EmptyString. reflexivity.
    + destruct (Ascii.eqb c slash); [|discriminate].
      intros [= <-]. exists (String c r). symmetry. apply append_empty_r.
Qed.

Lemma drop_bytes_app pre s : drop_bytes (String.length pre) (pre +:+ s) = s.
Proof.
  induction pre as [|c pre IH]; [destruct s; reflexivity|].
  rewrite append_String. cbn [String.length drop_bytes]. exact IH.
Qed.

Lemma take_bytes_app pre s : take_bytes (String.length pre) (pre +:+ s) = pre.
Proof.
  induction pre as [|c pre IH]; [destruct s; reflexivity|].
  rewrite append_String. cbn [String.length take_bytes].
  rewrite IH. reflexivity.
Qed.

Lemma TrimSuffix_app pre sfx : TrimSuffix (pre +:+ sfx) sfx = pre.
Proof.
  unfold TrimSuffix, HasSuffix. rewrite length_append_string.
  replace (String.length pre + String.length sfx - String.length sfx)
    with (String.length pre) by lia.
  rewrite drop_bytes_app, take_bytes_app, String.eqb_refl.
  destruct (Nat.leb_spec (String.length sfx)
              (String.length pre + String.length sfx)); [reflexivity | lia].
Qed.

(** X27: the session list shows exactly the session files of the
    directory, in listing order: the ids listed, each followed by .jsonl,
    are the names of the regular files with extension .jsonl, and the path
    of every session is the project name joined with its id. *)
Theorem sessionsOf_are_the_session_files (projectName : string)
    (entries : list (string * Node)) :
  map (fun s => ID s +:+ ".jsonl") (sessionsOf projectName entries)
  = map fst (List.filter isSessionEntry entries)
  /\ Forall (fun s => Path s = Join [projectName; ID s])
       (sessionsOf projectName entries).
Proof.
  induction entries as [|e entries [IH1 IH2]]; [split; [reflexivity|constructor]|].
  cbn [sessionsOf List.filter]. fold (isSessionEntry e).
  destruct (isSessionEntry e) eqn:He; [|split; assumption].
  cbv zeta. cbn [map ID Path fst]. split.
  - f_equal; [|exact IH1].
    unfold isSessionEntry in He. apply andb_true_iff in He as [_ Hext].
    apply String.eqb_eq in Hext. unfold Ext in Hext.
    destruct (extScan (fst e)) as [x|] eqn:Hscan; [|discriminate Hext].
    cbn in Hext. subst x.
    destruct (extScan_suffix _ _ Hscan) as [pre Hpre].
    rewrite Hpre at 1. rewrite TrimSuffix_app. symmetry. exact Hpre.
  - constructor; [reflexivity | exact IH2].
Qed.
